(** * aapt2 multi-APK generation: [tools/aapt2/optimize/MultiApkGenerator.cpp]

    A shallow embedding of [GetAndroidSdk], [ContextWrapper],
    [MultiApkGenerator::FromBaseApk] and [MultiApkGenerator::FilterTable],
    and the properties of the artifact pipeline that follow from the code.

    The C++ code works on objects behind pointers (the base resource table of
    the loaded APK, its manifest, the shared build context, the tables and
    documents an iteration creates).  These live in heaps indexed by
    locations; a pointer is a location, [Clone] and [InflateManifest] allocate
    a fresh one.  A function body is a computation [M R A] over the program
    state that either goes on with a value, executes a [return], or stops on a
    fault (the read of a [Maybe] that holds nothing, the use of a pointer to
    no object). *)

From Stdlib Require Import ZArith DecimalString DecimalZ DecimalPos.
From stdpp Require Import base option strings list gmap fin_maps fin_map_dom.

Local Open Scope Z_scope.
Local Open Scope string_scope.
Local Open Scope list_scope.

(** A pointer to a heap-allocated object. *)
Definition loc := positive.

(** ** Diagnostics ([IDiagnostics], [DiagMessage], [Source]) *)

Record Source := mkSource { path : string; line : option N }.

Definition WithLine (s : Source) (l : N) : Source := mkSource (path s) (Some l).

Record DiagMessage := mkDiag { msg_source : option Source; msg_text : string }.

(** [DiagMessage() << text] *)
Definition Msg (text : string) : DiagMessage := mkDiag None text.
(** [DiagMessage(source) << text] *)
Definition MsgAt (src : Source) (text : string) : DiagMessage := mkDiag (Some src) text.

Inductive Diagnostic :=
  | Error (m : DiagMessage)
  | Warn (m : DiagMessage)
  | Note (m : DiagMessage).

Definition is_error (d : Diagnostic) : bool :=
  match d with Error _ => true | _ => false end.

(** ** The XML document model ([xml::XmlResource], [xml::Element], [xml::Attribute]) *)
Module xml.

(** Modelled from the spec: [xml::kSchemaAndroid], a constant of another file
    of aapt2, the namespace the platform reserves for its attributes. *)
Definition kSchemaAndroid : string := "http://schemas.android.com/apk/res/android".

(** Modelled from the spec: [Item] and [BinaryPrimitive] are declared in
    other files of aapt2; the compiled value of an attribute is either a
    compiled integer or some other compiled item, kept by its raw text. *)
Inductive Item :=
  | BinaryPrimitive (data : Z)
  | OtherItem (raw : string).

Record Attribute := mkAttribute {
  attr_namespace_uri : string;
  attr_name : string;
  attr_value : string;
  compiled_value : option Item  (* std::unique_ptr<Item>, may be null *)
}.

(** An element owns its child nodes; a child is an element or text. *)
Inductive Element :=
  | mkElement (namespace_uri name : string) (line_number : N)
              (attributes : list Attribute) (children : list Node)
with Node :=
  | ElementNode (e : Element)
  | TextNode (text : string).

Definition namespace_uri (e : Element) : string :=
  let 'mkElement ns _ _ _ _ := e in ns.
Definition name (e : Element) : string :=
  let 'mkElement _ nm _ _ _ := e in nm.
Definition line_number (e : Element) : N :=
  let 'mkElement _ _ l _ _ := e in l.
Definition attributes (e : Element) : list Attribute :=
  let 'mkElement _ _ _ attrs _ := e in attrs.
Definition children (e : Element) : list Node :=
  let 'mkElement _ _ _ _ ch := e in ch.

Record XmlResource := mkXmlResource {
  file_source : Source;     (* manifest->file.source *)
  root : option Element     (* std::unique_ptr<Element>, may be null *)
}.

Definition named (ns nm : string) (n : Node) : Prop :=
  match n with
  | ElementNode e => namespace_uri e = ns ∧ name e = nm
  | TextNode _ => False
  end.

#[global] Instance named_dec ns nm n : Decision (named ns nm n).
Proof. destruct n; simpl; apply _. Defined.

(** Modelled from the spec: [Element::FindChild(ns, name)], child lookup by
    (namespace and) local name.  The result is the pointer to the first
    direct child element with that namespace and name: its position among
    the children, with the element found there; [None] is the null pointer. *)
Definition FindChild (el : Element) (ns nm : string) : option (nat * Element) :=
  match list_find (named ns nm) (children el) with
  | Some (i, ElementNode e) => Some (i, e)
  | _ => None
  end.

Definition attr_named (ns nm : string) (a : Attribute) : Prop :=
  attr_namespace_uri a = ns ∧ attr_name a = nm.

#[global] Instance attr_named_dec ns nm a : Decision (attr_named ns nm a).
Proof. unfold attr_named; apply _. Defined.

(** Modelled from the spec: [Element::FindAttribute(ns, name)], attribute
    lookup by namespace and local name: the position of the first such
    attribute and the attribute, or the null pointer. *)
Definition FindAttribute (el : Element) (ns nm : string) : option (nat * Attribute) :=
  list_find (attr_named ns nm) (attributes el).

(** The assignment [attr->compiled_value = v] through a pointer into a
    document: [i] is the position of the element among the children of the
    root, [j] the position of the attribute in that element. *)
Definition set_compiled_value (v : option Item) (a : Attribute) : Attribute :=
  mkAttribute (attr_namespace_uri a) (attr_name a) (attr_value a) v.

Definition assign_in_element (j : nat) (v : option Item) (e : Element) : Element :=
  mkElement (namespace_uri e) (name e) (line_number e)
            (alter (set_compiled_value v) j (attributes e)) (children e).

Definition assign_in_node (j : nat) (v : option Item) (n : Node) : Node :=
  match n with
  | ElementNode e => ElementNode (assign_in_element j v e)
  | TextNode t => TextNode t
  end.

Definition assign_in_root (i j : nat) (v : option Item) (r : Element) : Element :=
  mkElement (namespace_uri r) (name r) (line_number r) (attributes r)
            (alter (assign_in_node j v) i (children r)).

Definition assign_compiled_value (i j : nat) (v : option Item) (d : XmlResource)
  : XmlResource :=
  mkXmlResource (file_source d) (assign_in_root i j v <$> root d).

(** The [android:minSdkVersion] attribute of a manifest: that of the first
    direct unqualified [uses-sdk] child of an unqualified [<manifest>] root. *)
Definition min_sdk_attribute (d : XmlResource) : option Attribute :=
  r ← root d;
  guard (namespace_uri r = "" ∧ name r = "manifest");;
  '(_, uses_sdk) ← FindChild r "" "uses-sdk";
  '(_, a) ← FindAttribute uses_sdk kSchemaAndroid "minSdkVersion";
  Some a.

End xml.

(** ** The configuration ([configuration::Artifact], [AndroidSdk],
       [PostProcessingConfiguration]) *)
Module configuration.

(** The fields of [AndroidSdk] other than [min_sdk_version] are not read by
    [MultiApkGenerator.cpp]. *)
Record AndroidSdk := mkAndroidSdk {
  min_sdk_version : option Z   (* Maybe<int> *)
}.

Record Artifact := mkArtifact {
  name : option string;                   (* Maybe<std::string> *)
  abi_group : option string;
  screen_density_group : option string;
  locale_group : option string;
  android_sdk_group : option string
}.

End configuration.
Import configuration.

(** ** Types declared in other files *)

(** The resource table, the ABI enumeration, [ConfigDescription] (of which
    only the [density] field is read), the package type and the options of
    the table flattener are declared in other files of aapt2; the pipeline
    treats their values opaquely. *)
Class ExternalTypes := {
  ResourceTable : Type;
  Abi : Type;
  ConfigDescription : Type;
  density : ConfigDescription → Z;
  PackageType : Type;
  TableFlattenerOptions : Type
}.

Section DataModel.
Context `{ExternalTypes}.

Record PostProcessingConfiguration := mkConfig {
  artifacts : list Artifact;                               (* std::vector<Artifact> *)
  artifact_format : option string;                         (* Maybe<std::string> *)
  abi_groups : gmap string (list Abi);
  screen_density_groups : gmap string (list ConfigDescription);
  locale_groups : gmap string (list ConfigDescription);
  android_sdk_groups : gmap string AndroidSdk
}.

(** [MultiApkGeneratorOptions] *)
Record MultiApkGeneratorOptions := mkOptions {
  out_dir : string;
  config : PostProcessingConfiguration;
  table_flattener_options : TableFlattenerOptions
}.

(** What a concrete build context answers to the accessors of
    [IAaptContext]; the pointers it hands out ([SymbolTable*],
    [IDiagnostics*], [NameMangler*]) are locations. *)
Record Context := mkContext {
  package_type : PackageType;
  external_symbols : loc;
  diagnostics_sink : loc;
  compilation_package : string;
  package_id : Z;            (* uint8_t *)
  name_mangler : loc;
  verbose : bool;
  min_sdk_version_ : Z       (* int *)
}.

(** [FilterChain]: the filters added, oldest first.  The only filter the
    generator builds is [AbiFilter::FromAbiList]. *)
Inductive Filter := AbiFilter (abis : list Abi).
Definition FilterChain := list Filter.
Definition AddFilter (f : Filter) (chain : FilterChain) : FilterChain := chain ++ [f].

(** [AxisConfigFilter]: the configurations added, oldest first. *)
Definition AxisConfigFilter := list ConfigDescription.
Definition AddConfig (c : ConfigDescription) (f : AxisConfigFilter) : AxisConfigFilter :=
  f ++ [c].

(** [TableSplitterOptions] *)
Record TableSplitterOptions := mkSplits {
  preferred_densities : list Z;               (* std::vector<uint16_t> *)
  config_filter : option AxisConfigFilter     (* IConfigFilter*, null by default *)
}.

(** What is found at a path of the output directory: a file opened by
    [CreateZipFileArchiveWriter] into which nothing was written with
    success yet, or the archive [WriteToArchive] has written from a table,
    a filter chain and an optional manifest. *)
Inductive OutputFile :=
  | Created
  | Archive (table : ResourceTable) (filters : FilterChain)
            (manifest : option xml.XmlResource).

(** [LoadedApk]: the path it was loaded from, its resource table and the
    place of its manifest. *)
Record LoadedApk := mkApk {
  source_path : string;
  table_ : loc;
  manifest_ : loc
}.

(** [MultiApkGenerator] *)
Record MultiApkGenerator := mkGenerator {
  apk_ : LoadedApk;
  context_ : loc
}.

(** The program state: the heaps of build contexts, resource tables and
    XML documents, the messages sent to the diagnostics sink (oldest
    first), the files opened or written, by their paths, and the paths of
    the directories [file::mkdirs] has made or found. *)
Record State := mkState {
  contexts : gmap loc Context;
  tables : gmap loc ResourceTable;
  documents : gmap loc xml.XmlResource;
  diagnostics : list Diagnostic;
  files : gmap string OutputFile;
  directories : gset string
}.

End DataModel.

(** ** Collaborators

    Functions of other files of aapt2 that the generator calls.  Each is a
    function of the values it is given: the name the configuration computes
    for an artifact, the result of the version collapser and of the table
    splitter on a table, whether a directory or a file can be created, the
    directories made on the way, and whether writing an archive succeeds. *)
Class Collaborators `{ExternalTypes} := {
  (** [file::GetFilename(path)] *)
  GetFilename : string → string;
  (** [file::AppendPath(&out, part)]: the value of [out] after the call *)
  AppendPath : string → string → string;
  (** [file::mkdirs(path)]: what it returns, and the directories it makes
      besides the one at [path] *)
  mkdirs : string → bool;
  mkdirs_makes : string → gset string;
  (** [artifact.Name(apk_name, diag)] *)
  Artifact_Name : Artifact → string → option string;
  (** [artifact.ToArtifactName(format, apk_name, diag)] *)
  ToArtifactName : Artifact → string → string → option string;
  (** [VersionCollapser::Consume(context, table)]: what it returns and the
      table it leaves, from what the context answers and the table it finds *)
  Consume : Context → ResourceTable → bool * ResourceTable;
  (** [TableSplitter{{}, options}.SplitTable(table)]: the table it leaves *)
  SplitTable : TableSplitterOptions → ResourceTable → ResourceTable;
  (** [std::to_string(int)] *)
  to_string : Z → string;
  (** [ResourceUtils::TryParseInt(str)] *)
  TryParseInt : string → option xml.Item;
  (** [CreateZipFileArchiveWriter(diag, path)]: whether a writer is returned *)
  CreateZipFileArchiveWriter : string → bool;
  (** [LoadedApk::WriteToArchive(context, table, options, filters, writer,
      manifest)]: whether it succeeds, from what the context answers, the
      table, the options, the filter chain, the path of the writer (if there
      is one) and the manifest document (if there is one) *)
  WriteToArchive : Context → ResourceTable → TableFlattenerOptions → FilterChain →
                   option string → option xml.XmlResource → bool
}.

(** ** [IAaptContext] and [ContextWrapper] *)
Section Contexts.
Context `{ExternalTypes}.

(** The interface [IAaptContext]: what each accessor of a context object
    returns, given the heap of build contexts.  An accessor has no answer
    when the object delegates to a dangling pointer. *)
Class IAaptContext (C : Type) := {
  GetPackageType : C → gmap loc Context → option PackageType;
  GetExternalSymbols : C → gmap loc Context → option loc;
  GetDiagnostics : C → gmap loc Context → option loc;
  GetCompilationPackage : C → gmap loc Context → option string;
  GetPackageId : C → gmap loc Context → option Z;
  GetNameMangler : C → gmap loc Context → option loc;
  IsVerbose : C → gmap loc Context → option bool;
  GetMinSdkVersion : C → gmap loc Context → option Z
}.

(** A pointer [IAaptContext*] to a build context of the heap. *)
#[global] Instance pointer_context : IAaptContext loc := {|
  GetPackageType p h := package_type <$> h !! p;
  GetExternalSymbols p h := external_symbols <$> h !! p;
  GetDiagnostics p h := diagnostics_sink <$> h !! p;
  GetCompilationPackage p h := compilation_package <$> h !! p;
  GetPackageId p h := package_id <$> h !! p;
  GetNameMangler p h := name_mangler <$> h !! p;
  IsVerbose p h := verbose <$> h !! p;
  GetMinSdkVersion p h := min_sdk_version_ <$> h !! p
|}.

(** [class ContextWrapper : public IAaptContext] *)
Record ContextWrapper := mkContextWrapper {
  wrapped_ : loc;      (* IAaptContext* context_ *)
  min_sdk_ : Z         (* int min_sdk_ *)
}.

(** [ContextWrapper(IAaptContext* context)
       : context_(context), min_sdk_(context_->GetMinSdkVersion())] *)
Definition ContextWrapper_new (context : loc) (h : gmap loc Context)
  : option ContextWrapper :=
  mkContextWrapper context <$> GetMinSdkVersion context h.

#[global] Instance wrapper_context : IAaptContext ContextWrapper := {|
  GetPackageType w := GetPackageType (wrapped_ w);
  GetExternalSymbols w := GetExternalSymbols (wrapped_ w);
  GetDiagnostics w := GetDiagnostics (wrapped_ w);
  GetCompilationPackage w := GetCompilationPackage (wrapped_ w);
  GetPackageId w := GetPackageId (wrapped_ w);
  GetNameMangler w := GetNameMangler (wrapped_ w);
  IsVerbose w := IsVerbose (wrapped_ w);
  GetMinSdkVersion w _ := Some (min_sdk_ w)
|}.

(** [void SetMinSdkVersion(int min_sdk) { min_sdk_ = min_sdk; }] *)
Definition SetMinSdkVersion (min_sdk : Z) (w : ContextWrapper) : ContextWrapper :=
  mkContextWrapper (wrapped_ w) min_sdk.

(** What a callee that is handed a context object can learn from it: the
    answers of the eight accessors of the interface. *)
Definition observe {C} `{IAaptContext C} (c : C) (h : gmap loc Context)
  : option Context :=
  pt ← GetPackageType c h;
  es ← GetExternalSymbols c h;
  dg ← GetDiagnostics c h;
  cp ← GetCompilationPackage c h;
  pid ← GetPackageId c h;
  nm ← GetNameMangler c h;
  vb ← IsVerbose c h;
  ms ← GetMinSdkVersion c h;
  Some (mkContext pt es dg cp pid nm vb ms).

End Contexts.

(** ** Function bodies as computations on the state *)
Section Computations.
Context `{ExternalTypes}.

(** The two ways the program can stop outside its own control flow: the
    read of a [Maybe] that holds nothing ([Maybe<T>::value()]), and the use
    of a pointer to no object. *)
Inductive Fault := AbsentMaybe | BadPointer.

(** A statement of a function that returns an [R]: it completes with a
    value, executes [return r], or faults. *)
Inductive Outcome (R A : Type) :=
  | Next (a : A)
  | Return (r : R)
  | Crash (f : Fault).
Global Arguments Next {R A} a.
Global Arguments Return {R A} r.
Global Arguments Crash {R A} f.

Definition M (R A : Type) : Type := State → Outcome R A * State.

#[global] Instance M_ret {R} : MRet (M R) := λ A a s, (Next a, s).

#[global] Instance M_bind {R} : MBind (M R) := λ A B k m s,
  match m s with
  | (Next a, s') => k a s'
  | (Return r, s') => (Return r, s')
  | (Crash f, s') => (Crash f, s')
  end.

(** [return r;] *)
Definition return_ {R A} (r : R) : M R A := λ s, (Return r, s).

Definition crash {R A} (f : Fault) : M R A := λ s, (Crash f, s).

(** [if (c) { body }] *)
Definition when {R} (c : bool) (body : M R unit) : M R unit :=
  if c then body else mret tt.

(** The call of a function whose body is [body]: the value it returns. *)
Definition call {R R'} (body : M R R) : M R' R := λ s,
  match body s with
  | (Next r, s') => (Next r, s')
  | (Return r, s') => (Next r, s')
  | (Crash f, s') => (Crash f, s')
  end.

(** [Maybe<T>]: [if (m)] and [m.value()] *)
Definition has_value {A} (m : option A) : bool :=
  match m with Some _ => true | None => false end.

(** Modelled from the spec: [Maybe<T>::value()] is declared in another file
    of aapt2; reading the value of a [Maybe] that holds nothing is the fault
    that must not happen. *)
Definition value {R A} (m : option A) : M R A :=
  match m with Some a => mret a | None => crash AbsentMaybe end.

(** Pointers: [if (p)], [p != nullptr], and [*p], [p->] *)
Definition non_null {A} (p : option A) : bool :=
  match p with Some _ => true | None => false end.

Definition is_null {A} (p : option A) : bool := negb (non_null p).

Definition deref {R A} (p : option A) : M R A :=
  match p with Some a => mret a | None => crash BadPointer end.

(** A call through a pointer to a context object. *)
Definition ask {R A} (accessor : gmap loc Context → option A) : M R A := λ s,
  match accessor (contexts s) with
  | Some a => (Next a, s)
  | None => (Crash BadPointer, s)
  end.

(** The state with one component replaced. *)
Definition with_tables (t : gmap loc ResourceTable) (s : State) : State :=
  mkState (contexts s) t (documents s) (diagnostics s) (files s) (directories s).
Definition with_documents (d : gmap loc xml.XmlResource) (s : State) : State :=
  mkState (contexts s) (tables s) d (diagnostics s) (files s) (directories s).
Definition with_diagnostics (d : list Diagnostic) (s : State) : State :=
  mkState (contexts s) (tables s) (documents s) d (files s) (directories s).
Definition with_files (f : gmap string OutputFile) (s : State) : State :=
  mkState (contexts s) (tables s) (documents s) (diagnostics s) f (directories s).
Definition with_directories (d : gset string) (s : State) : State :=
  mkState (contexts s) (tables s) (documents s) (diagnostics s) (files s) d.

(** [diag->Error(m)], [diag->Warn(m)], [diag->Note(m)]: every message of
    the generator goes to the one sink the build context hands out. *)
Definition emit {R} (d : Diagnostic) : M R unit := λ s,
  (Next tt, with_diagnostics (diagnostics s ++ [d]) s).

(** [context->GetDiagnostics()->Error(m)] and the like *)
Definition emit_via {R} (context : loc) (d : Diagnostic) : M R unit :=
  _ ← ask (GetDiagnostics context); emit d.

(** Reads and writes of the objects behind pointers. *)
Definition load_table {R} (p : loc) : M R ResourceTable := λ s,
  match tables s !! p with
  | Some t => (Next t, s)
  | None => (Crash BadPointer, s)
  end.

Definition store_table {R} (p : loc) (t : ResourceTable) : M R unit := λ s,
  match tables s !! p with
  | Some _ => (Next tt, with_tables (<[p := t]> (tables s)) s)
  | None => (Crash BadPointer, s)
  end.

Definition load_document {R} (p : loc) : M R xml.XmlResource := λ s,
  match documents s !! p with
  | Some d => (Next d, s)
  | None => (Crash BadPointer, s)
  end.

Definition store_document {R} (p : loc) (d : xml.XmlResource) : M R unit := λ s,
  match documents s !! p with
  | Some _ => (Next tt, with_documents (<[p := d]> (documents s)) s)
  | None => (Crash BadPointer, s)
  end.

(** The destructor of a [std::unique_ptr<ResourceTable>] that owns the
    table behind [p], where a function leaves the scope of the pointer
    without handing the table on. *)
Definition destroy_table {R} (p : loc) : M R unit := λ s,
  (Next tt, with_tables (delete p (tables s)) s).

(** [old_table.Clone()]: a new table object with the content of the old. *)
Definition Clone {R} (old_table : loc) : M R loc := λ s,
  match tables s !! old_table with
  | Some t =>
      let p := fresh (dom (tables s)) in
      (Next p, with_tables (<[p := t]> (tables s)) s)
  | None => (Crash BadPointer, s)
  end.

(** Modelled from the spec: [LoadedApk::InflateManifest(context)] is
    declared in another file of aapt2; it loads the manifest of the base
    package into a new document owned by the caller, or returns null when
    the manifest cannot be loaded. *)
Definition InflateManifest {R} (apk : LoadedApk) (context : loc) : M R (option loc) :=
  λ s,
  match documents s !! manifest_ apk with
  | Some d =>
      let p := fresh (dom (documents s)) in
      (Next (Some p), with_documents (<[p := d]> (documents s)) s)
  | None => (Next None, s)
  end.

(** The end of a block: the tables and documents owned by the
    [std::unique_ptr]s declared in the block are destroyed, on the normal
    exit and on [return]. *)
Definition release (s0 s : State) : State :=
  mkState (contexts s)
          (filter (λ kv, kv.1 ∈ dom (tables s0)) (tables s))
          (filter (λ kv, kv.1 ∈ dom (documents s0)) (documents s))
          (diagnostics s) (files s) (directories s).

Definition scoped {R A} (body : M R A) : M R A := λ s0,
  match body s0 with
  | (Crash f, s) => (Crash f, s)
  | (o, s) => (o, release s0 s)
  end.

(** [for (const T& x : xs) { body }] *)
Fixpoint for_each {R A} (body : A → M R unit) (xs : list A) : M R unit :=
  match xs with
  | [] => mret tt
  | x :: rest => _ ← scoped (body x); for_each body rest
  end.

End Computations.

(** ** The generator *)
Section Generator.
Context `{Collaborators}.

(** [GetAndroidSdk(artifact, config, diag)], lines 47-62. *)
Definition GetAndroidSdk {R} (artifact : Artifact) (config : PostProcessingConfiguration)
  : M R (option AndroidSdk) :=
  call (
    when (negb (has_value (android_sdk_group artifact))) (return_ None);;
    group_name ← value (android_sdk_group artifact);
    match android_sdk_groups config !! group_name with
    | None =>
        emit (Error (Msg ("could not find referenced group '" +:+ group_name +:+ "'")));;
        return_ None
    | Some group => return_ (Some group)
    end).

(** [collapser.Consume(&wrappedContext, table.get())] *)
Definition VersionCollapser_Consume {R} (context : ContextWrapper) (table : loc)
  : M R bool :=
  view ← ask (observe context);
  t ← load_table table;
  store_table table (Consume view t).2;;
  mret (Consume view t).1.

(** [splitter.SplitTable(table.get())] *)
Definition TableSplitter_SplitTable {R} (splits : TableSplitterOptions) (table : loc)
  : M R unit :=
  t ← load_table table;
  store_table table (SplitTable splits t).

(** [MultiApkGenerator::FilterTable(artifact, config, old_table, filters)],
    lines 218-289.  [filters] is an out-parameter: the result is the pointer
    returned together with the filter chain as the call leaves it. *)
Definition FilterTable {R} (this : MultiApkGenerator) (artifact : Artifact)
    (config : PostProcessingConfiguration) (old_table : loc) (filters : FilterChain)
  : M R (option loc * FilterChain) :=
  call (
    let splits := mkSplits [] None in
    let axis_filter : AxisConfigFilter := [] in
    wrappedContext ← ask (ContextWrapper_new (context_ this));
    filters ←
      (if has_value (abi_group artifact) then
         group_name ← value (abi_group artifact);
         match abi_groups config !! group_name with
         | None =>
             emit_via (context_ this)
               (Error (Msg ("could not find referenced ABI group '"
                            +:+ group_name +:+ "'")));;
             return_ (None, filters)
         | Some group => mret (AddFilter (AbiFilter group) filters)
         end
       else mret filters);
    splits ←
      (if has_value (screen_density_group artifact) then
         group_name ← value (screen_density_group artifact);
         match screen_density_groups config !! group_name with
         | None =>
             emit_via (context_ this)
               (Error (Msg ("could not find referenced group '" +:+ group_name +:+ "'")));;
             return_ (None, filters)
         | Some densities =>
             mret (mkSplits
                     (foldl (λ preferred density_config,
                               preferred ++ [density density_config])
                            (preferred_densities splits) densities)
                     (config_filter splits))
         end
       else mret splits);
    splits ←
      (if has_value (locale_group artifact) then
         group_name ← value (locale_group artifact);
         match locale_groups config !! group_name with
         | None =>
             emit_via (context_ this)
               (Error (Msg ("could not find referenced group '" +:+ group_name +:+ "'")));;
             return_ (None, filters)
         | Some locales =>
             let axis_filter :=
               foldl (λ f locale, AddConfig locale f) axis_filter locales in
             mret (mkSplits (preferred_densities splits) (Some axis_filter))
         end
       else mret splits);
    _ ← ask (GetDiagnostics (context_ this));
    sdk ← GetAndroidSdk artifact config;
    wrappedContext ←
      match sdk with
      | Some android_sdk =>
          if has_value (min_sdk_version android_sdk) then
            min_sdk ← value (min_sdk_version android_sdk);
            mret (SetMinSdkVersion min_sdk wrappedContext)
          else mret wrappedContext
      | None => mret wrappedContext
      end;
    table ← Clone old_table;
    collapsed ← VersionCollapser_Consume wrappedContext table;
    when (negb collapsed)
      (emit_via (context_ this) (Error (Msg "Failed to strip versioned resources"));;
       destroy_table table;;           (* the local [table] leaves its scope *)
       return_ (None, filters));;
    TableSplitter_SplitTable splits table;;
    return_ (Some table, filters)).

(** The naming of the artifact, lines 134-147 of [FromBaseApk]. *)
Definition ResolveArtifactName (artifact : Artifact)
    (config : PostProcessingConfiguration) (apk_name : string) : M bool (option string) :=
  when (negb (has_value (name artifact)) && negb (has_value (artifact_format config)))
    (emit (Error (Msg "Artifact does not have a name and no global name template defined"));;
     return_ false);;
  artifact_name ←
    (if has_value (name artifact) then mret (Artifact_Name artifact apk_name)
     else
       format ← value (artifact_format config);
       mret (ToArtifactName artifact format apk_name));
  when (negb (has_value artifact_name))
    (emit (Error (Msg "Could not determine split APK artifact name"));;
     return_ false);;
  mret artifact_name.

(** The manifest of the artifact, lines 155-190 of [FromBaseApk]: the
    value of [manifest] when the block is left. *)
Definition PatchManifest (this : MultiApkGenerator) (artifact : Artifact)
    (config : PostProcessingConfiguration) : M bool (option loc) :=
  maybe_sdk ← GetAndroidSdk artifact config;
  if has_value maybe_sdk then
    android_sdk ← value maybe_sdk;
    manifest ← InflateManifest (apk_ this) (context_ this);
    when (is_null manifest) (return_ false);;
    document ← (p ← deref manifest; load_document p);
    let manifest_el := xml.root document in
    when (is_null manifest_el) (return_ false);;
    root ← deref manifest_el;
    when (negb (bool_decide (xml.namespace_uri root = ""))
          || negb (bool_decide (xml.name root = "manifest")))
      (emit (Error (MsgAt (xml.file_source document) "root tag must be <manifest>"));;
       return_ false);;
    match xml.FindChild root "" "uses-sdk" with
    | Some (i, uses_sdk_el) =>
        let min_sdk_attr :=
          xml.FindAttribute uses_sdk_el xml.kSchemaAndroid "minSdkVersion" in
        when (non_null min_sdk_attr)
          (when (is_null min_sdk_attr)
             (emit (Error (MsgAt (WithLine (xml.file_source document)
                                           (xml.line_number uses_sdk_el))
                                 "missing android:minSdkVersion"));;
              return_ false);;
           min_sdk ← value (min_sdk_version android_sdk);
           let min_sdk_str := to_string min_sdk in
           '(j, _) ← deref min_sdk_attr;
           p ← deref manifest;
           store_document p
             (xml.assign_compiled_value i j (TryParseInt min_sdk_str) document))
    | None => mret tt
    end;;
    mret manifest
  else mret None.

(** The directories that are there after [file::mkdirs(path)]: the one
    at [path] when it returns [true], and those it makes besides. *)
Definition made_by_mkdirs (path : string) : gset string :=
  mkdirs_makes path ∪ (if mkdirs path then {[path]} else ∅).

(** Modelled from the spec: [file::mkdirs(path)] is declared in another
    file of aapt2; it makes sure the directory at [path] exists, so that
    the directory is there when it returns [true].  The other directories
    it makes on the way are there after the call, whatever it returns. *)
Definition file_mkdirs {R} (path : string) : M R bool := λ s,
  (Next (mkdirs path), with_directories (directories s ∪ made_by_mkdirs path) s).

(** [CreateZipFileArchiveWriter(diag, out)]: the writer, known by the path
    of the file it has opened, or null. *)
Definition OpenArchiveWriter {R} (out : string) : M R (option string) := λ s,
  if CreateZipFileArchiveWriter out
  then (Next (Some out), with_files (<[out := Created]> (files s)) s)
  else (Next None, s).

(** [apk_->WriteToArchive(context, table, options, filters, writer, manifest)] *)
Definition LoadedApk_WriteToArchive {R} (context : loc) (table : option loc)
    (options : TableFlattenerOptions) (filters : FilterChain)
    (writer : option string) (manifest : option loc) : M R bool :=
  view ← ask (observe context);
  t ← (p ← deref table; load_table p);
  document ←
    match manifest with
    | Some p => d ← load_document p; mret (Some d)
    | None => mret None
    end;
  let written := WriteToArchive view t options filters writer document in
  match writer with
  | Some out =>
      when written (λ s,
        (Next tt, with_files (<[out := Archive t filters document]> (files s)) s))
  | None => mret tt
  end;;
  mret written.

(** The writing of the artifact, lines 192-212 of [FromBaseApk]. *)
Definition WriteArtifact (this : MultiApkGenerator) (options : MultiApkGeneratorOptions)
    (artifact_name : option string) (table : option loc) (filters : FilterChain)
    (manifest : option loc) : M bool unit :=
  let out := out_dir options in
  made ← file_mkdirs out;
  when (negb made)
    (emit_via (context_ this) (Warn (Msg ("could not create out dir: " +:+ out))));;
  file_name ← value artifact_name;
  let out := AppendPath out file_name in
  is_verbose ← ask (IsVerbose (context_ this));
  when is_verbose
    (emit_via (context_ this) (Note (Msg ("Generating split: " +:+ out))));;
  _ ← ask (GetDiagnostics (context_ this));
  writer ← OpenArchiveWriter out;
  is_verbose ← ask (IsVerbose (context_ this));
  when is_verbose (emit (Note (Msg ("Writing output: " +:+ out))));;
  written ← LoadedApk_WriteToArchive (context_ this) table
              (table_flattener_options options) filters writer manifest;
  when (negb written) (return_ false).

(** The body of the loop over the artifacts, lines 132-212. *)
Definition GenerateArtifact (this : MultiApkGenerator) (options : MultiApkGeneratorOptions)
    (apk_name : string) (artifact : Artifact) : M bool unit :=
  let config := config options in
  let filters : FilterChain := [] in
  artifact_name ← ResolveArtifactName artifact config apk_name;
  '(table, filters) ← FilterTable this artifact config (table_ (apk_ this)) filters;
  when (is_null table) (return_ false);;
  manifest ← PatchManifest this artifact config;
  WriteArtifact this options artifact_name table filters manifest.

(** [MultiApkGenerator::FromBaseApk(options)], lines 121-216.  The
    extension and the base name computed at lines 127-128 are not used. *)
Definition FromBaseApk {R} (this : MultiApkGenerator) (options : MultiApkGeneratorOptions)
  : M R bool :=
  call (
    _ ← ask (GetDiagnostics (context_ this));
    let apk_name := GetFilename (source_path (apk_ this)) in
    for_each (GenerateArtifact this options apk_name) (artifacts (config options));;
    return_ true).

End Generator.

(** * The vocabulary of the properties *)
Section Vocabulary.
Context `{ExternalTypes}.

(** [keeps I m]: from every state, [m] ends in a state related to it by
    [I], whatever its outcome. *)
Definition keeps {R A} (I : relation State) (m : M R A) : Prop :=
  ∀ s, I s (m s).2.

(** Only the diagnostics sink has changed, by new messages at its end. *)
Definition only_reports (s s' : State) : Prop :=
  contexts s' = contexts s ∧ tables s' = tables s ∧ documents s' = documents s
  ∧ files s' = files s ∧ diagnostics s `prefix_of` diagnostics s'
  ∧ directories s' = directories s.

(** The objects, files and directories of [s] are still there, each
    object with the content it had; new objects, files, directories and
    messages may have come. *)
Definition extends (s s' : State) : Prop :=
  contexts s' = contexts s ∧ tables s ⊆ tables s' ∧ documents s ⊆ documents s'
  ∧ dom (files s) ⊆ dom (files s') ∧ diagnostics s `prefix_of` diagnostics s'
  ∧ directories s ⊆ directories s'.

(** As [extends], and no new table or document is left. *)
Definition settled (s s' : State) : Prop :=
  contexts s' = contexts s ∧ tables s' = tables s ∧ documents s' = documents s
  ∧ dom (files s) ⊆ dom (files s') ∧ diagnostics s `prefix_of` diagnostics s'
  ∧ directories s ⊆ directories s'.

(** As [only_reports], but the table behind [p] may have a new content or
    be gone. *)
Definition touches_table (p : loc) (s s' : State) : Prop :=
  contexts s' = contexts s ∧ (∀ q, q ≠ p → tables s' !! q = tables s !! q)
  ∧ documents s' = documents s ∧ files s' = files s
  ∧ diagnostics s `prefix_of` diagnostics s' ∧ directories s' = directories s.

(** As [only_reports], but the document behind [p] may have a new content. *)
Definition touches_document (p : loc) (s s' : State) : Prop :=
  contexts s' = contexts s ∧ tables s' = tables s
  ∧ (∀ q, q ≠ p → documents s' !! q = documents s !! q) ∧ files s' = files s
  ∧ diagnostics s `prefix_of` diagnostics s' ∧ directories s' = directories s.

(** Nothing but the diagnostics and, by new tables, the heap of tables has
    changed. *)
Definition adds_tables (s s' : State) : Prop :=
  contexts s' = contexts s ∧ tables s ⊆ tables s' ∧ documents s' = documents s
  ∧ files s' = files s ∧ diagnostics s `prefix_of` diagnostics s'
  ∧ directories s' = directories s.

(** Nothing but the diagnostics and, by new documents, the heap of
    documents has changed. *)
Definition adds_documents (s s' : State) : Prop :=
  contexts s' = contexts s ∧ tables s' = tables s ∧ documents s ⊆ documents s'
  ∧ files s' = files s ∧ diagnostics s `prefix_of` diagnostics s'
  ∧ directories s' = directories s.

(** The relations that allow new messages in the sink. *)
Class Reporting (I : relation State) : Prop :=
  reporting : ∀ s s', only_reports s s' → I s s'.

(** [returns P m]: whenever [m] executes [return r], [P r] holds. *)
Definition returns {R A} (P : R → Prop) (m : M R A) : Prop :=
  ∀ s r, (m s).1 = Return r → P r.

(** [resolves group groups]: the group an artifact names, if it names
    one, is a group of the configuration. *)
Definition resolves {A} (group : option string) (groups : gmap string A) : Prop :=
  ∀ g, group = Some g → is_Some (groups !! g).

(** The group an artifact names, looked up in the configuration. *)
Definition bound {A} (group : option string) (groups : gmap string A) : option A :=
  group ≫= λ g, groups !! g.

(** All groups the artifact names are groups of the configuration. *)
Definition references_resolve (artifact : Artifact) (cfg : PostProcessingConfiguration)
  : Prop :=
  resolves (abi_group artifact) (abi_groups cfg)
  ∧ resolves (screen_density_group artifact) (screen_density_groups cfg)
  ∧ resolves (locale_group artifact) (locale_groups cfg)
  ∧ resolves (android_sdk_group artifact) (android_sdk_groups cfg).

(** The SDK group of the artifact, if the configuration has it, carries a
    minimum version. *)
Definition has_min_sdk (cfg : PostProcessingConfiguration) (artifact : Artifact) : Prop :=
  ∀ sdk, bound (android_sdk_group artifact) (android_sdk_groups cfg) = Some sdk →
         is_Some (min_sdk_version sdk).

(** What a callee observes through a wrapper of the context [c] whose
    minimum SDK version is [min_sdk]. *)
Definition seen_through (c : Context) (min_sdk : Z) : Context :=
  mkContext (package_type c) (external_symbols c) (diagnostics_sink c)
            (compilation_package c) (package_id c) (name_mangler c) (verbose c) min_sdk.

(** The filter chain [FilterTable] leaves. *)
Definition chain_of (artifact : Artifact) (cfg : PostProcessingConfiguration)
    (filters : FilterChain) : FilterChain :=
  filters ++ match bound (abi_group artifact) (abi_groups cfg) with
             | Some abis => [AbiFilter abis]
             | None => []
             end.

(** The options [FilterTable] gives the table splitter. *)
Definition splits_of (artifact : Artifact) (cfg : PostProcessingConfiguration)
  : TableSplitterOptions :=
  mkSplits
    (match bound (screen_density_group artifact) (screen_density_groups cfg) with
     | Some densities => density <$> densities
     | None => []
     end)
    (bound (locale_group artifact) (locale_groups cfg)).

(** The minimum SDK version the version collapser is given. *)
Definition effective_min_sdk (artifact : Artifact) (cfg : PostProcessingConfiguration)
    (c : Context) : Z :=
  default (min_sdk_version_ c)
          (bound (android_sdk_group artifact) (android_sdk_groups cfg) ≫= min_sdk_version).

(** The same build contexts, tables and documents; the diagnostics and the
    files may differ. *)
Definition same_heaps (s s' : State) : Prop :=
  contexts s = contexts s' ∧ tables s = tables s' ∧ documents s = documents s'.

(** [heap_determined m]: the outcome of [m] and the heaps it leaves depend
    on the heaps it finds only. *)
Definition heap_determined {R A} (m : M R A) : Prop :=
  ∀ s s', same_heaps s s' → (m s).1 = (m s').1 ∧ same_heaps (m s).2 (m s').2.

(** Every file but the one at [file] is as it was, and the directories
    are those that had been made, but for those of [dirs]. *)
Definition writes_only_at (dirs : gset string) (file : string) (s s' : State) : Prop :=
  (∀ q, q ≠ file → files s' !! q = files s !! q)
  ∧ (∀ q, q ∉ dirs → q ∈ directories s' ↔ q ∈ directories s).

(** The options with another list of artifacts. *)
Definition with_artifacts (arts : list Artifact) (options : MultiApkGeneratorOptions)
  : MultiApkGeneratorOptions :=
  mkOptions (out_dir options)
    (mkConfig arts (artifact_format (config options)) (abi_groups (config options))
       (screen_density_groups (config options)) (locale_groups (config options))
       (android_sdk_groups (config options)))
    (table_flattener_options options).

(** The errors among the messages reported so far. *)
Definition errors (s : State) : list Diagnostic := List.filter is_error (diagnostics s).

End Vocabulary.

Section Naming.
Context `{Collaborators}.

(** The name [FromBaseApk] computes for an artifact, lines 140-142. *)
Definition candidate_name (artifact : Artifact) (cfg : PostProcessingConfiguration)
    (apk_name : string) : option string :=
  match name artifact with
  | Some _ => Artifact_Name artifact apk_name
  | None => artifact_format cfg ≫= λ format, ToArtifactName artifact format apk_name
  end.



End Naming.

(** ** A packaging scenario

    A base package [app.apk] whose resources are known by the platform
    version they are defined for, with collaborators that can be run: the
    version collapser drops the resources below the minimum SDK version, the
    splitter keeps the table, names are taken as configured, and integers
    are printed and parsed in decimal. *)
Module Scenario.

Definition types : ExternalTypes := {|
  ResourceTable := list Z;
  Abi := string;
  ConfigDescription := Z;
  density := λ d, d;
  PackageType := unit;
  TableFlattenerOptions := unit
|}.

Definition decimal (z : Z) : string := NilZero.string_of_int (Z.to_int z).

Definition parse_decimal (s : string) : option xml.Item :=
  (λ d, xml.BinaryPrimitive (Z.of_int d)) <$> NilZero.int_of_string s.

(** [dirs]: whether directories can be created. *)
Definition tools (dirs : bool) : @Collaborators types := {|
  GetFilename := λ p, p;
  AppendPath := λ dir part, dir +:+ "/" +:+ part;
  mkdirs := λ _, dirs;
  mkdirs_makes := λ _, ∅;
  Artifact_Name := λ artifact _, name artifact;
  ToArtifactName := λ _ format apk_name, Some (format +:+ apk_name);
  Consume := λ c t,
    (true, filter (λ v : Z, (min_sdk_version_ (H:=types) c ≤ v)%Z) (t : list Z));
  SplitTable := λ _ t, t;
  to_string := decimal;
  TryParseInt := parse_decimal;
  CreateZipFileArchiveWriter := λ _, true;
  WriteToArchive := λ _ _ _ _ writer _, has_value writer
|}.

Definition base_context : @Context types :=
  mkContext (H:=types) tt 10%positive 11%positive "com.example.app" 127 12%positive false 14.

Definition manifest_source : Source := mkSource "AndroidManifest.xml" None.

(** [<manifest><uses-sdk android:minSdkVersion="14"/></manifest>] *)
Definition manifest_with_min_sdk : xml.XmlResource :=
  xml.mkXmlResource manifest_source
    (Some (xml.mkElement "" "manifest" 1 []
             [xml.TextNode " ";
              xml.ElementNode
                (xml.mkElement "" "uses-sdk" 2
                   [xml.mkAttribute xml.kSchemaAndroid "minSdkVersion" "14"
                      (Some (xml.BinaryPrimitive 14))] [])])).

(** [<manifest><uses-sdk android:targetSdkVersion="26"/></manifest>] *)
Definition manifest_without_min_sdk : xml.XmlResource :=
  xml.mkXmlResource manifest_source
    (Some (xml.mkElement "" "manifest" 1 []
             [xml.ElementNode
                (xml.mkElement "" "uses-sdk" 2
                   [xml.mkAttribute xml.kSchemaAndroid "targetSdkVersion" "26"
                      (Some (xml.BinaryPrimitive 26))] [])])).

(** [<manifest><application/></manifest>] *)
Definition manifest_without_uses_sdk : xml.XmlResource :=
  xml.mkXmlResource manifest_source
    (Some (xml.mkElement "" "manifest" 1 []
             [xml.ElementNode (xml.mkElement "" "application" 2 [] [])])).

Definition base_table : list Z := [4; 14; 21; 26].

(** The state before a run: the build context, the base table and the
    manifest of the base package, no message, no file. *)
Definition initial (manifest : xml.XmlResource) : @State types :=
  mkState (H:=types) {[1%positive := base_context]} {[1%positive := base_table]}
          {[1%positive := manifest]} [] ∅ ∅.

Definition generator : @MultiApkGenerator :=
  mkGenerator (mkApk "app.apk" 1%positive 1%positive) 1%positive.

Definition sdk_groups : gmap string AndroidSdk :=
  {[ "v21" := mkAndroidSdk (Some 21); "any" := mkAndroidSdk None ]}.

Definition options_for (arts : list Artifact) : @MultiApkGeneratorOptions types :=
  mkOptions (H:=types) "out"
    (mkConfig (H:=types) arts None
              {[ "arm" := ["armeabi-v7a"; "arm64-v8a"] ]} {[ "hi" := [320; 480] ]}
              {[ "en" := [0] ]} sdk_groups) tt.

Definition plain : Artifact := mkArtifact (Some "plain.apk") None None None None.
Definition arm : Artifact := mkArtifact (Some "arm.apk") (Some "arm") None None None.
Definition v21 : Artifact := mkArtifact (Some "v21.apk") None None None (Some "v21").
Definition any_sdk : Artifact := mkArtifact (Some "any.apk") None None None (Some "any").
Definition v99 : Artifact := mkArtifact (Some "v99.apk") None None None (Some "v99").
Definition unnamed : Artifact := mkArtifact None None None None None.

(** A run in which the second of three artifacts has no name: the body of
    the loop for the configuration and the state after the first artifact. *)
Definition three_artifacts : @MultiApkGeneratorOptions types :=
  options_for [v21; unnamed; plain].

Definition body_of_three : Artifact → M (H:=types) bool unit :=
  GenerateArtifact (H0:=tools true) generator three_artifacts "app.apk".

Definition after_first : @State types :=
  (for_each body_of_three [v21] (initial manifest_with_min_sdk)).2.

(** A state in which the table of an artifact has been filtered: the base
    table and the table of the artifact. *)
Definition filtered : @State types :=
  mkState (H:=types) {[1%positive := base_context]}
          {[1%positive := base_table; 2%positive := [21; 26]]}
          {[1%positive := manifest_with_min_sdk]} [] ∅ ∅.

(** Collaborators that fail: the version collapser gives up, and no
    archive can be opened. *)
Definition failing_tools : @Collaborators types := {|
  GetFilename := λ p, p;
  AppendPath := λ dir part, dir +:+ "/" +:+ part;
  mkdirs := λ _, true;
  mkdirs_makes := λ _, ∅;
  Artifact_Name := λ artifact _, name artifact;
  ToArtifactName := λ _ format apk_name, Some (format +:+ apk_name);
  Consume := λ _ t, (false, t);
  SplitTable := λ _ t, t;
  to_string := decimal;
  TryParseInt := parse_decimal;
  CreateZipFileArchiveWriter := λ _, false;
  WriteToArchive := λ _ _ _ _ writer _, has_value writer
|}.

(** An empty document. *)
Definition manifest_without_root : xml.XmlResource :=
  xml.mkXmlResource manifest_source None.

(** [<application/>] *)
Definition manifest_with_wrong_root : xml.XmlResource :=
  xml.mkXmlResource manifest_source (Some (xml.mkElement "" "application" 1 [] [])).

(** The state before a run on a package whose manifest cannot be loaded. *)
Definition without_manifest : @State types :=
  mkState (H:=types) {[1%positive := base_context]} {[1%positive := base_table]} ∅ [] ∅
          ∅.

(** Artifacts that name groups the configuration does not have. *)
Definition x86 : Artifact := mkArtifact (Some "x86.apk") (Some "x86") None None None.
Definition xxhdpi : Artifact := mkArtifact (Some "xxhdpi.apk") None (Some "xxhdpi") None None.
Definition fr : Artifact := mkArtifact (Some "fr.apk") None None (Some "fr") None.

(** An artifact that names a group on each axis but the SDK. *)
Definition arm_hi_en : Artifact :=
  mkArtifact (Some "arm-hi-en.apk") (Some "arm") (Some "hi") (Some "en") None.



End Scenario.

(** * Properties *)

(** ** What a computation leaves unchanged *)
Section Frames.
Context `{ExternalTypes}.

#[global] Instance only_reports_po : PreOrder only_reports.
Proof.
  split.
  - intros s. by repeat split.
  - intros s1 s2 s3 (?&?&?&?&?&?) (?&?&?&?&?&?).
    repeat split; try congruence. by etrans.
Qed.

#[global] Instance extends_po : PreOrder extends.
Proof.
  split.
  - intros s. by repeat split.
  - intros s1 s2 s3 (?&?&?&?&?&?) (?&?&?&?&?&?).
    split; [congruence|]. repeat split; by etrans.
Qed.

#[global] Instance settled_po : PreOrder settled.
Proof.
  split.
  - intros s. by repeat split.
  - intros s1 s2 s3 (?&?&?&?&?&?) (?&?&?&?&?&?).
    repeat split; try congruence; by etrans.
Qed.

Lemma only_reports_settled s s' : only_reports s s' → settled s s'.
Proof. intros (?&?&?&Hf&?&Hdirs). repeat split; try done; by rewrite ?Hf, ?Hdirs. Qed.

Lemma settled_extends s s' : settled s s' → extends s s'.
Proof. intros (?&Ht&Hd&?&?&?). repeat split; try done; by rewrite ?Ht, ?Hd. Qed.

Lemma only_reports_extends s s' : only_reports s s' → extends s s'.
Proof. intros. by apply settled_extends, only_reports_settled. Qed.

Section Rules.
Context {R : Type} (I : relation State) `{!PreOrder I}.

Lemma keeps_ret {A} (a : A) : keeps I (mret a : M R A).
Proof. intros s. reflexivity. Qed.

Lemma keeps_return {A} (r : R) : keeps I (return_ r : M R A).
Proof. intros s. reflexivity. Qed.

Lemma keeps_crash {A} f : keeps I (crash f : M R A).
Proof. intros s. reflexivity. Qed.

Lemma keeps_bind {A B} (m : M R A) (k : A → M R B) :
  keeps I m → (∀ a, keeps I (k a)) → keeps I (m ≫= k).
Proof.
  intros Hm Hk s. specialize (Hm s). unfold mbind, M_bind.
  destruct (m s) as [[a|r|f] s1]; simpl in *; try done.
  etrans; [done|]. apply Hk.
Qed.

Lemma keeps_when (c : bool) (m : M R unit) : keeps I m → keeps I (when c m).
Proof. destruct c; simpl; [done|]. intros _. apply keeps_ret. Qed.

Lemma keeps_call {R'} (m : M R' R') : keeps I m → keeps I (call m : M R R').
Proof.
  intros Hm s. specialize (Hm s). unfold call.
  by destruct (m s) as [[a|r|f] s1].
Qed.

Lemma keeps_value {A} (m : option A) : keeps I (value m : M R A).
Proof. destruct m; [apply keeps_ret | apply keeps_crash]. Qed.

Lemma keeps_deref {A} (p : option A) : keeps I (deref p : M R A).
Proof. destruct p; [apply keeps_ret | apply keeps_crash]. Qed.

Lemma keeps_ask {A} (f : gmap loc Context → option A) : keeps I (ask f : M R A).
Proof. intros s. unfold ask. destruct (f _); reflexivity. Qed.

Lemma keeps_load_table p : keeps I (load_table p : M R _).
Proof. intros s. unfold load_table. destruct (_ !! _); reflexivity. Qed.

Lemma keeps_load_document p : keeps I (load_document p : M R _).
Proof. intros s. unfold load_document. destruct (_ !! _); reflexivity. Qed.
End Rules.

Lemma keeps_weaken {R A} (I J : relation State) (m : M R A) :
  (∀ s s', I s s' → J s s') → keeps I m → keeps J m.
Proof. intros HIJ Hm s. apply HIJ, Hm. Qed.

Lemma keeps_emit {R} d : keeps only_reports (emit d : M R unit).
Proof. intros s. repeat split. simpl. by apply prefix_app_r. Qed.

Lemma keeps_emit_via {R} c d : keeps only_reports (emit_via c d : M R unit).
Proof.
  apply keeps_bind; [apply _ | apply keeps_ask, _ | intros; apply keeps_emit].
Qed.

End Frames.

(** Solves [keeps I m] for a computation built from the statements above. *)
Ltac keeps_side :=
  lazymatch goal with
  | |- PreOrder _ => apply _
  | |- _ => idtac
  end.

Ltac keeps_step :=
  lazymatch goal with
  | |- keeps _ (mbind _ _) => apply keeps_bind; keeps_side; [| intros ?]
  | |- keeps _ (mret _) => apply keeps_ret; keeps_side
  | |- keeps _ (return_ _) => apply keeps_return; keeps_side
  | |- keeps _ (crash _) => apply keeps_crash; keeps_side
  | |- keeps _ (when _ _) => apply keeps_when; keeps_side
  | |- keeps _ (call _) => apply keeps_call; keeps_side
  | |- keeps _ (value _) => apply keeps_value; keeps_side
  | |- keeps _ (deref _) => apply keeps_deref; keeps_side
  | |- keeps _ (ask _) => apply keeps_ask; keeps_side
  | |- keeps _ (load_table _) => apply keeps_load_table; keeps_side
  | |- keeps _ (load_document _) => apply keeps_load_document; keeps_side
  | |- keeps only_reports (emit _) => apply keeps_emit
  | |- keeps only_reports (emit_via _ _) => apply keeps_emit_via
  | |- keeps _ (match ?x with _ => _ end) => destruct x
  end.

Ltac keeps_auto := repeat keeps_step.

Section MoreFrames.
Context `{ExternalTypes}.

#[global] Instance touches_table_po p : PreOrder (touches_table p).
Proof.
  split.
  - intros s. by repeat split.
  - intros s1 s2 s3 (?&Ha&?&?&?&?) (?&Hb&?&?&?&?).
    repeat split; try congruence; [|by etrans].
    intros q Hq. by rewrite Hb, Ha.
Qed.

#[global] Instance touches_document_po p : PreOrder (touches_document p).
Proof.
  split.
  - intros s. by repeat split.
  - intros s1 s2 s3 (?&?&Ha&?&?&?) (?&?&Hb&?&?&?).
    repeat split; try congruence; [|by etrans].
    intros q Hq. by rewrite Hb, Ha.
Qed.

#[global] Instance adds_tables_po : PreOrder adds_tables.
Proof.
  split.
  - intros s. by repeat split.
  - intros s1 s2 s3 (?&?&?&?&?&?) (?&?&?&?&?&?).
    repeat split; try congruence; by etrans.
Qed.

#[global] Instance adds_documents_po : PreOrder adds_documents.
Proof.
  split.
  - intros s. by repeat split.
  - intros s1 s2 s3 (?&?&?&?&?&?) (?&?&?&?&?&?).
    repeat split; try congruence; by etrans.
Qed.

#[global] Instance reporting_only : Reporting only_reports.
Proof. by intros s s'. Qed.
#[global] Instance reporting_settled : Reporting settled.
Proof. intros s s'. apply only_reports_settled. Qed.
#[global] Instance reporting_extends : Reporting extends.
Proof. intros s s'. apply only_reports_extends. Qed.
#[global] Instance reporting_touches_table p : Reporting (touches_table p).
Proof. intros s s' (?&Ht&?&?&?&?). repeat split; try done. intros. by rewrite Ht. Qed.
#[global] Instance reporting_touches_document p : Reporting (touches_document p).
Proof. intros s s' (?&?&Hd&?&?&?). repeat split; try done. intros. by rewrite Hd. Qed.
#[global] Instance reporting_adds_tables : Reporting adds_tables.
Proof. intros s s' (?&Ht&?&?&?&?). repeat split; try done. by rewrite Ht. Qed.
#[global] Instance reporting_adds_documents : Reporting adds_documents.
Proof. intros s s' (?&?&Hd&?&?&?). repeat split; try done. by rewrite Hd. Qed.

Lemma keeps_reports {R A} (I : relation State) `{!Reporting I} (m : M R A) :
  keeps only_reports m → keeps I m.
Proof. apply keeps_weaken, reporting. Qed.

Lemma adds_tables_extends s s' : adds_tables s s' → extends s s'.
Proof.
  intros (?&?&Hd&Hf&?&Hdirs). repeat split; try done; by rewrite ?Hd, ?Hf, ?Hdirs.
Qed.

Lemma adds_documents_extends s s' : adds_documents s s' → extends s s'.
Proof.
  intros (?&Ht&?&Hf&?&Hdirs). repeat split; try done; by rewrite ?Ht, ?Hf, ?Hdirs.
Qed.

Lemma keeps_store_table {R} p t : keeps (touches_table p) (store_table p t : M R unit).
Proof.
  intros s. unfold store_table. destruct (tables s !! p); [|reflexivity].
  repeat split; simpl; try done. intros q Hq. by rewrite lookup_insert_ne.
Qed.

Lemma keeps_store_document {R} p d :
  keeps (touches_document p) (store_document p d : M R unit).
Proof.
  intros s. unfold store_document. destruct (documents s !! p); [|reflexivity].
  repeat split; simpl; try done. intros q Hq. by rewrite lookup_insert_ne.
Qed.

Lemma keeps_destroy_table {R} p : keeps (touches_table p) (destroy_table p : M R unit).
Proof.
  intros s. repeat split; simpl; try done. intros q Hq. by rewrite lookup_delete_ne.
Qed.

(** A computation that goes on with [k] after [m], where what [k a] keeps
    depends on the value [a] of [m]. *)
Lemma keeps_bind_with {R A B} (I : relation State) (J : A → relation State)
    (m : M R A) (k : A → M R B) :
  (∀ s, match m s with
        | (Next a, s1) => ∀ s2, J a s1 s2 → I s s2
        | (_, s1) => I s s1
        end) →
  (∀ a, keeps (J a) (k a)) →
  keeps I (m ≫= k).
Proof.
  intros Hm Hk s. specialize (Hm s). unfold mbind, M_bind.
  destruct (m s) as [[a|r|f] s1]; simpl; try done. apply Hm, Hk.
Qed.

(** A new table is a table at a place where there was none. *)
Lemma Clone_adds {R} old (k : loc → M R (option loc * FilterChain)) :
  (∀ p, keeps (touches_table p) (k p)) → keeps adds_tables (Clone old ≫= k).
Proof.
  intros Hk. apply keeps_bind_with with (J := touches_table); [|done].
  intros s. unfold Clone. destruct (tables s !! old) as [t|]; [|reflexivity].
  set (p := fresh (dom (tables s))).
  intros s2 (Hc&Ht&Hd&Hf&Hg&Hdirs). simpl in *.
  assert (tables s !! p = None) as Hp by apply not_elem_of_dom, is_fresh.
  repeat split; try done.
  apply map_subseteq_spec. intros q x Hq.
  assert (q ≠ p) as Hne by congruence.
  by rewrite Ht, lookup_insert_ne.
Qed.

(** A new document is a document at a place where there was none. *)
Lemma InflateManifest_adds {R B} apk c (k : option loc → M R B) :
  keeps only_reports (k None) →
  (∀ p, keeps (touches_document p) (k (Some p))) →
  keeps adds_documents (InflateManifest apk c ≫= k).
Proof.
  intros Hn Hk.
  apply keeps_bind_with with
    (J := λ o, match o with Some p => touches_document p | None => only_reports end).
  2: { intros [p|]; [apply Hk | apply Hn]. }
  intros s. unfold InflateManifest.
  destruct (documents s !! manifest_ apk) as [d|].
  2: { intros s2. apply reporting. }
  set (p := fresh (dom (documents s))).
  intros s2 (Hc&Ht&Hd&Hf&Hg&Hdirs). simpl in *.
  assert (documents s !! p = None) as Hp by apply not_elem_of_dom, is_fresh.
  repeat split; try done.
  apply map_subseteq_spec. intros q x Hq.
  assert (q ≠ p) as Hne by congruence.
  by rewrite Hd, lookup_insert_ne.
Qed.

(** At the end of a block the heaps of tables and documents are what they
    were at its start, if the block only added to them. *)
Lemma release_settled s s' : extends s s' → settled s (release s s').
Proof.
  intros (Hc&Ht&Hd&Hf&Hg&Hdirs). repeat split; simpl; try done.
  - apply map_eq. intros q. apply option_eq. intros x.
    rewrite map_lookup_filter_Some. simpl. split.
    + intros [Hx [y Hy]%elem_of_dom].
      pose proof (lookup_weaken _ _ _ _ Hy Ht). congruence.
    + intros Hx. split; [by eapply lookup_weaken | by eapply elem_of_dom_2].
  - apply map_eq. intros q. apply option_eq. intros x.
    rewrite map_lookup_filter_Some. simpl. split.
    + intros [Hx [y Hy]%elem_of_dom].
      pose proof (lookup_weaken _ _ _ _ Hy Hd). congruence.
    + intros Hx. split; [by eapply lookup_weaken | by eapply elem_of_dom_2].
Qed.

Lemma release_only_reports s s' : only_reports s s' → release s s' = s'.
Proof.
  intros (Hc&Ht&Hd&Hf&Hg&Hdirs). destruct s'; unfold release; simpl in *. f_equal.
  - apply map_filter_id. intros q x Hx. simpl. rewrite <- Ht. by eapply elem_of_dom_2.
  - apply map_filter_id. intros q x Hx. simpl. rewrite <- Hd. by eapply elem_of_dom_2.
Qed.

Lemma scoped_extends {R A} (body : M R A) :
  keeps extends body → keeps extends (scoped body).
Proof.
  intros Hb s. specialize (Hb s). unfold scoped.
  destruct (body s) as [[a|r|f] s1]; simpl in *; try done;
    by apply settled_extends, release_settled.
Qed.

Lemma scoped_settled {R A} (body : M R A) s :
  keeps extends body →
  (∀ f, (scoped body s).1 ≠ Crash f) → settled s (scoped body s).2.
Proof.
  intros Hb Hnc. specialize (Hb s). unfold scoped in *.
  destruct (body s) as [[a|r|f] s1]; simpl in *;
    [by apply release_settled..|].
  by destruct (Hnc f).
Qed.

Lemma keeps_deref_null {R A B} (I : relation State) `{!PreOrder I} (k : A → M R B) :
  keeps I (deref None ≫= k).
Proof. intros s. reflexivity. Qed.

Lemma for_each_extends {R A} (body : A → M R unit) xs :
  (∀ x, keeps extends (body x)) → keeps extends (for_each body xs).
Proof.
  intros Hb. induction xs as [|x xs IH]; simpl.
  - apply keeps_ret, _.
  - apply keeps_bind; [apply _ | by apply scoped_extends | done].
Qed.

Lemma for_each_settled {R A} (body : A → M R unit) xs s :
  (∀ x, keeps extends (body x)) →
  (∀ f, (for_each body xs s).1 ≠ Crash f) → settled s (for_each body xs s).2.
Proof.
  intros Hb. revert s. induction xs as [|x xs IH]; intros s Hnc; simpl in *.
  - reflexivity.
  - unfold mbind, M_bind in *.
    pose proof (scoped_settled (body x) s (Hb x)) as Hx.
    destruct (scoped (body x) s) as [[[]|r|f] s1] eqn:E; simpl in *.
    + etrans; [by apply Hx | by apply IH].
    + by apply Hx.
    + by destruct (Hnc f).
Qed.

End MoreFrames.

Ltac keeps_more :=
  lazymatch goal with
  | |- keeps (touches_table ?p) (store_table ?p _) => apply keeps_store_table
  | |- keeps (touches_document ?p) (store_document ?p _) => apply keeps_store_document
  | |- keeps (touches_table ?p) (destroy_table ?p) => apply keeps_destroy_table
  | |- keeps _ (emit _) => apply keeps_reports; [apply _ | apply keeps_emit]
  | |- keeps _ (emit_via _ _) => apply keeps_reports; [apply _ | apply keeps_emit_via]
  | |- keeps adds_tables (mbind _ (Clone _)) => apply Clone_adds; intros ?
  | |- keeps adds_documents (mbind _ (InflateManifest _ _)) =>
      apply InflateManifest_adds; [| intros ?]; cbv beta
  | |- keeps ?I (mbind ?k (deref (Some ?p))) => change (keeps I (k p)); cbv beta
  | |- keeps _ (mbind _ (deref None)) => apply keeps_deref_null; keeps_side
  | |- _ => keeps_step
  end.

Ltac keeps_all := repeat keeps_more.

(** ** What the steps of the generator leave unchanged *)
Section GeneratorFrames.
Context `{Collaborators}.

Lemma GetAndroidSdk_reports {R} artifact config :
  keeps only_reports (GetAndroidSdk artifact config : M R _).
Proof. unfold GetAndroidSdk. keeps_all. Qed.

Lemma ResolveArtifactName_reports artifact config apk_name :
  keeps only_reports (ResolveArtifactName artifact config apk_name).
Proof. unfold ResolveArtifactName. keeps_all. Qed.

Lemma VersionCollapser_Consume_touches {R} w p :
  keeps (touches_table p) (VersionCollapser_Consume w p : M R _).
Proof. unfold VersionCollapser_Consume. keeps_all. Qed.

Lemma TableSplitter_SplitTable_touches {R} splits p :
  keeps (touches_table p) (TableSplitter_SplitTable splits p : M R _).
Proof. unfold TableSplitter_SplitTable. keeps_all. Qed.

Ltac keeps_generator :=
  repeat lazymatch goal with
  | |- keeps _ (GetAndroidSdk _ _) =>
      apply keeps_reports; [apply _ | apply GetAndroidSdk_reports]
  | |- keeps _ (ResolveArtifactName _ _ _) =>
      apply keeps_reports; [apply _ | apply ResolveArtifactName_reports]
  | |- keeps (touches_table ?p) (VersionCollapser_Consume _ ?p) =>
      apply VersionCollapser_Consume_touches
  | |- keeps (touches_table ?p) (TableSplitter_SplitTable _ ?p) =>
      apply TableSplitter_SplitTable_touches
  | |- _ => keeps_more
  end.

(** [FilterTable] changes no table that exists when it is called: what it
    writes, it writes to the table it has cloned. *)
Lemma FilterTable_adds {R} this artifact config old_table filters :
  keeps adds_tables (FilterTable this artifact config old_table filters : M R _).
Proof. unfold FilterTable. keeps_generator. Qed.

(** The manifest block changes no document that exists when it is entered. *)
Lemma PatchManifest_adds this artifact config :
  keeps adds_documents (PatchManifest this artifact config).
Proof. unfold PatchManifest. keeps_generator. Qed.

Lemma file_mkdirs_settled {R} path : keeps settled (file_mkdirs path : M R _).
Proof.
  intros s. unfold file_mkdirs. repeat split; simpl; try done.
  apply union_subseteq_l.
Qed.

Lemma OpenArchiveWriter_settled {R} out :
  keeps settled (OpenArchiveWriter out : M R _).
Proof.
  intros s. unfold OpenArchiveWriter.
  destruct (CreateZipFileArchiveWriter out); [|reflexivity].
  repeat split; simpl; try done. rewrite dom_insert_L. set_solver.
Qed.

Lemma LoadedApk_WriteToArchive_settled {R} c table options filters writer manifest :
  keeps settled
    (LoadedApk_WriteToArchive c table options filters writer manifest : M R _).
Proof.
  unfold LoadedApk_WriteToArchive. keeps_generator.
  intros st. repeat split; simpl; try done. rewrite dom_insert_L. set_solver.
Qed.

(** The write block changes no table and no document, and removes no file. *)
Lemma WriteArtifact_settled this options artifact_name table filters manifest :
  keeps settled (WriteArtifact this options artifact_name table filters manifest).
Proof.
  unfold WriteArtifact. keeps_generator.
  - apply file_mkdirs_settled.
  - apply OpenArchiveWriter_settled.
  - apply LoadedApk_WriteToArchive_settled.
Qed.

Lemma GenerateArtifact_extends this options apk_name artifact :
  keeps extends (GenerateArtifact this options apk_name artifact).
Proof.
  unfold GenerateArtifact. keeps_generator.
  - eapply keeps_weaken; [apply adds_tables_extends | apply FilterTable_adds].
  - eapply keeps_weaken; [apply adds_documents_extends | apply PatchManifest_adds].
  - eapply keeps_weaken; [apply settled_extends | apply WriteArtifact_settled].
Qed.

Lemma FromBaseApk_extends {R} this options :
  keeps extends (FromBaseApk this options : M R bool).
Proof.
  unfold FromBaseApk. keeps_generator.
  apply for_each_extends. intros. apply GenerateArtifact_extends.
Qed.

End GeneratorFrames.

(** ** The values a body can [return] *)
Section Returns.
Context `{ExternalTypes}.

Lemma returns_bind {R A B} (P : R → Prop) (m : M R A) (k : A → M R B) :
  returns P m → (∀ a, returns P (k a)) → returns P (m ≫= k).
Proof.
  intros Hm Hk s r. specialize (Hm s). unfold mbind, M_bind.
  destruct (m s) as [[a|r'|f] s1]; simpl in *; [apply Hk | | done].
  intros [= <-]. by apply Hm.
Qed.

Lemma returns_return {R A} (P : R → Prop) r : P r → returns P (return_ r : M R A).
Proof. intros Hr s r' [= <-]. done. Qed.

Lemma returns_when {R} (P : R → Prop) c (m : M R unit) :
  returns P m → returns P (when c m).
Proof. destruct c; [done|]. by intros _ s r. Qed.

(** Statements that never execute [return]. *)
Lemma returns_ret {R A} (P : R → Prop) (a : A) : returns P (mret a : M R A).
Proof. by intros s r. Qed.

Lemma returns_call {R R'} (P : R → Prop) (m : M R' R') : returns P (call m : M R R').
Proof. intros s r. unfold call. by destruct (m s) as [[?|?|?] ?]. Qed.

Lemma returns_value {R A} (P : R → Prop) (o : option A) : returns P (value o : M R A).
Proof. by destruct o; intros s r. Qed.

Lemma returns_deref {R A} (P : R → Prop) (o : option A) : returns P (deref o : M R A).
Proof. by destruct o; intros s r. Qed.

Lemma returns_ask {R A} (P : R → Prop) (f : gmap loc Context → option A) :
  returns P (ask f : M R A).
Proof. intros s r. unfold ask. by destruct (f _). Qed.

Lemma returns_emit {R} (P : R → Prop) d : returns P (emit d : M R unit).
Proof. by intros s r. Qed.

Lemma returns_load_table {R} (P : R → Prop) p : returns P (load_table p : M R _).
Proof. intros s r. unfold load_table. by destruct (_ !! _). Qed.

Lemma returns_load_document {R} (P : R → Prop) p : returns P (load_document p : M R _).
Proof. intros s r. unfold load_document. by destruct (_ !! _). Qed.

Lemma returns_store_document {R} (P : R → Prop) p d :
  returns P (store_document p d : M R _).
Proof. intros s r. unfold store_document. by destruct (_ !! _). Qed.

Lemma returns_InflateManifest {R} (P : R → Prop) apk c :
  returns P (InflateManifest apk c : M R _).
Proof. intros s r. unfold InflateManifest. by destruct (_ !! _). Qed.

Lemma returns_scoped {R A} (P : R → Prop) (m : M R A) :
  returns P m → returns P (scoped m).
Proof.
  intros Hm s r. specialize (Hm s r). unfold scoped.
  by destruct (m s) as [[?|?|?] ?].
Qed.

Lemma returns_for_each {R A} (P : R → Prop) (body : A → M R unit) xs :
  (∀ x, returns P (body x)) → returns P (for_each body xs).
Proof.
  intros Hb. induction xs as [|x xs IH]; simpl.
  - apply returns_ret.
  - apply returns_bind; [by apply returns_scoped | done].
Qed.

End Returns.

Ltac returns_step :=
  lazymatch goal with
  | |- returns _ (mbind _ _) => apply returns_bind; [| intros ?]
  | |- returns _ (return_ _) => apply returns_return; try done
  | |- returns _ (when _ _) => apply returns_when
  | |- returns _ (mret _) => apply returns_ret
  | |- returns _ (call _) => apply returns_call
  | |- returns _ (value _) => apply returns_value
  | |- returns _ (deref _) => apply returns_deref
  | |- returns _ (ask _) => apply returns_ask
  | |- returns _ (emit _) => apply returns_emit
  | |- returns _ (emit_via _ _) => unfold emit_via
  | |- returns _ (load_table _) => apply returns_load_table
  | |- returns _ (load_document _) => apply returns_load_document
  | |- returns _ (store_document _ _) => apply returns_store_document
  | |- returns _ (InflateManifest _ _) => apply returns_InflateManifest
  | |- returns _ (match ?x with _ => _ end) => destruct x
  end.

Section GeneratorReturns.
Context `{Collaborators}.

(** Every [return] in the body of the loop is a [return false]. *)
Lemma GenerateArtifact_returns_false this options apk_name artifact :
  returns (λ r, r = false) (GenerateArtifact this options apk_name artifact).
Proof.
  unfold GenerateArtifact, ResolveArtifactName, FilterTable, PatchManifest,
    GetAndroidSdk, WriteArtifact, LoadedApk_WriteToArchive.
  repeat returns_step.
  - by intros st r.
  - intros st r. unfold OpenArchiveWriter. by destruct (CreateZipFileArchiveWriter _).
  - by intros st r.
Qed.

End GeneratorReturns.

(** ** How the statements run *)

(** Runs the statements whose outcome does not depend on the state. *)
Ltac run :=
  repeat (progress (unfold mbind, M_bind, mret, M_ret, return_, crash, when, value,
                    deref, call; simpl)).

Section Runs.
Context `{Collaborators}.

Lemma bind_run {R A B} (m : M R A) (k : A → M R B) s :
  (m ≫= k) s =
  match m s with
  | (Next a, s') => k a s'
  | (Return r, s') => (Return r, s')
  | (Crash f, s') => (Crash f, s')
  end.
Proof. reflexivity. Qed.

(** Through a pointer to a context of the heap one observes that context. *)
Lemma observe_pointer (p : loc) (h : gmap loc Context) c :
  h !! p = Some c → observe p h = Some c.
Proof. intros Hc. unfold observe. simpl. rewrite Hc. by destruct c. Qed.

Lemma ask_observe {R} (p : loc) s c :
  contexts s !! p = Some c → ask (R:=R) (observe p) s = (Next c, s).
Proof. intros Hc. unfold ask. by rewrite (observe_pointer _ _ _ Hc). Qed.

Lemma ask_GetDiagnostics {R} (p : loc) s c :
  contexts s !! p = Some c →
  ask (R:=R) (GetDiagnostics p) s = (Next (diagnostics_sink c), s).
Proof. intros Hc. unfold ask. simpl. by rewrite Hc. Qed.

Lemma ask_IsVerbose {R} (p : loc) s c :
  contexts s !! p = Some c → ask (R:=R) (IsVerbose p) s = (Next (verbose c), s).
Proof. intros Hc. unfold ask. simpl. by rewrite Hc. Qed.

Lemma emit_via_run {R} (p : loc) d s c :
  contexts s !! p = Some c →
  emit_via (R:=R) p d s = (Next tt, with_diagnostics (diagnostics s ++ [d]) s).
Proof.
  intros Hc. unfold emit_via. by rewrite bind_run, (ask_GetDiagnostics _ _ _ Hc).
Qed.

(** The three ways [GetAndroidSdk] ends. *)
Lemma GetAndroidSdk_unbound {R} artifact config s :
  android_sdk_group artifact = None →
  GetAndroidSdk (R:=R) artifact config s = (Next None, s).
Proof. intros Hg. unfold GetAndroidSdk. by rewrite Hg. Qed.

Lemma GetAndroidSdk_found {R} artifact config s group_name sdk :
  android_sdk_group artifact = Some group_name →
  android_sdk_groups config !! group_name = Some sdk →
  GetAndroidSdk (R:=R) artifact config s = (Next (Some sdk), s).
Proof.
  intros Hg Hs. unfold GetAndroidSdk. rewrite Hg. run. by rewrite Hs.
Qed.

Lemma GetAndroidSdk_missing {R} artifact config s group_name :
  android_sdk_group artifact = Some group_name →
  android_sdk_groups config !! group_name = None →
  GetAndroidSdk (R:=R) artifact config s =
  (Next None,
   with_diagnostics
     (diagnostics s ++
      [Error (Msg ("could not find referenced group '" +:+ group_name +:+ "'"))]) s).
Proof.
  intros Hg Hs. unfold GetAndroidSdk. rewrite Hg. run. by rewrite Hs.
Qed.

(** The loop runs through a list in its order: the artifacts of [xs ++ ys]
    are those of [xs], then those of [ys], unless one of [xs] left the loop. *)
Lemma for_each_app {R A} (body : A → M R unit) xs ys s :
  for_each body (xs ++ ys) s =
  match for_each body xs s with
  | (Next _, s1) => for_each body ys s1
  | (Return r, s1) => (Return r, s1)
  | (Crash f, s1) => (Crash f, s1)
  end.
Proof.
  revert s. induction xs as [|x xs IH]; intros s; simpl; [done|].
  rewrite !bind_run. destruct (scoped (body x) s) as [[[]|r|f] s1]; [apply IH|done..].
Qed.

(** With a valid context pointer, [FromBaseApk] returns [true] when the
    loop has run to its end, and what the loop has returned otherwise. *)
Lemma FromBaseApk_run {R} this options s :
  is_Some (contexts s !! context_ this) →
  FromBaseApk (R:=R) this options s =
  match for_each (GenerateArtifact this options (GetFilename (source_path (apk_ this))))
                 (artifacts (config options)) s with
  | (Next _, s1) => (Next true, s1)
  | (Return r, s1) => (Next r, s1)
  | (Crash f, s1) => (Crash f, s1)
  end.
Proof.
  intros [c Hc]. unfold FromBaseApk, call.
  rewrite bind_run, (ask_GetDiagnostics _ _ _ Hc), bind_run.
  by destruct (for_each _ _ s) as [[[]|r|f] s1].
Qed.

End Runs.

(** ** Assignments through pointers into a document *)
Section XmlFacts.

(** The first element found by a predicate is found at the same place
    after that element is changed, if the predicate still holds of it. *)
Lemma list_find_alter {A} (P : A → Prop) `{∀ x, Decision (P x)}
    (f : A → A) (l : list A) (i : nat) (x : A) :
  list_find P l = Some (i, x) → P (f x) →
  list_find P (alter f i l) = Some (i, f x).
Proof.
  intros (Hx&HP&Hleast)%list_find_Some Hf. apply list_find_Some. split_and!.
  - by rewrite list_lookup_alter_eq, Hx.
  - done.
  - intros j y Hy Hj. rewrite list_lookup_alter_ne in Hy by lia. by eapply Hleast.
Qed.

Lemma FindAttribute_assign uses_sdk ns nm j a v :
  xml.FindAttribute uses_sdk ns nm = Some (j, a) →
  xml.FindAttribute (xml.assign_in_element j v uses_sdk) ns nm
  = Some (j, xml.set_compiled_value v a).
Proof.
  unfold xml.FindAttribute. intros Hfind. destruct uses_sdk as [? ? ? attrs ?]. simpl in *.
  apply list_find_alter; [done|].
  by apply list_find_Some in Hfind as (_&?&_).
Qed.

Lemma FindChild_assign root ns nm i j uses_sdk v :
  xml.FindChild root ns nm = Some (i, uses_sdk) →
  xml.FindChild (xml.assign_in_root i j v root) ns nm
  = Some (i, xml.assign_in_element j v uses_sdk).
Proof.
  unfold xml.FindChild. destruct root as [? ? ? ? nodes]. simpl.
  destruct (list_find _ nodes) as [[i' [e|t]]|] eqn:Hfind; [|done..].
  intros [= -> ->].
  rewrite (list_find_alter _ (xml.assign_in_node j v) _ _ _ Hfind); [done|].
  apply list_find_Some in Hfind as (_&HP&_).
  by destruct uses_sdk.
Qed.

(** What [xml.min_sdk_attribute] unfolds to. *)
Lemma min_sdk_attribute_Some document a :
  xml.min_sdk_attribute document = Some a ↔
  ∃ root i uses_sdk j,
    xml.root document = Some root
    ∧ xml.namespace_uri root = "" ∧ xml.name root = "manifest"
    ∧ xml.FindChild root "" "uses-sdk" = Some (i, uses_sdk)
    ∧ xml.FindAttribute uses_sdk xml.kSchemaAndroid "minSdkVersion" = Some (j, a).
Proof.
  unfold xml.min_sdk_attribute. split.
  - intros Ha. destruct (xml.root document) as [root|]; [|done]. simpl in Ha.
    case_guard as Hroot; [|done]. simpl in Ha. destruct Hroot as [Hns Hname].
    destruct (xml.FindChild root "" "uses-sdk") as [[i uses_sdk]|] eqn:Hchild; [|done].
    simpl in Ha.
    destruct (xml.FindAttribute uses_sdk _ _) as [[j a']|] eqn:Hattr; [|done].
    simpl in Ha. injection Ha as ->. exists root, i, uses_sdk, j. by split_and!.
  - intros (root&i&uses_sdk&j&->&Hns&Hname&Hchild&Hattr). simpl.
    rewrite option_guard_True by done. simpl. rewrite Hchild. simpl. by rewrite Hattr.
Qed.

End XmlFacts.

(** ** The claims *)
Section Claims.
Context `{Collaborators}.

(** C10: the context wrapper overrides one accessor, the minimum SDK
    version.  After [SetMinSdkVersion min_sdk], [GetMinSdkVersion] answers
    [min_sdk]; each of the seven other accessors answers what the wrapped
    base context answers, in every state of the heap of contexts; and
    [FilterTable], where the override is set, leaves every build context as
    it was. *)
Theorem ContextWrapper_overrides_min_sdk_only
    (w : ContextWrapper) (min_sdk : Z) (h : gmap loc Context) :
  let w' := SetMinSdkVersion min_sdk w in
  GetMinSdkVersion w' h = Some min_sdk
  ∧ wrapped_ w' = wrapped_ w
  ∧ GetPackageType w' h = GetPackageType (wrapped_ w) h
  ∧ GetExternalSymbols w' h = GetExternalSymbols (wrapped_ w) h
  ∧ GetDiagnostics w' h = GetDiagnostics (wrapped_ w) h
  ∧ GetCompilationPackage w' h = GetCompilationPackage (wrapped_ w) h
  ∧ GetPackageId w' h = GetPackageId (wrapped_ w) h
  ∧ GetNameMangler w' h = GetNameMangler (wrapped_ w) h
  ∧ IsVerbose w' h = IsVerbose (wrapped_ w) h
  ∧ GetMinSdkVersion (wrapped_ w) h = min_sdk_version_ <$> h !! wrapped_ w
  ∧ ∀ this artifact cfg old_table filters s,
      contexts (FilterTable (R:=bool) this artifact cfg old_table filters s).2
      = contexts s.
Proof.
  repeat split.
  intros this artifact cfg old_table filters s.
  by destruct (FilterTable_adds (R:=bool) this artifact cfg old_table filters s).
Qed.

Lemma FromBaseApk_settled {R} this options s :
  (∀ f, (FromBaseApk (R:=R) this options s).1 ≠ Crash f) →
  settled s (FromBaseApk (R:=R) this options s).2.
Proof.
  unfold FromBaseApk, call. rewrite bind_run. unfold ask.
  destruct (GetDiagnostics _ _); simpl; [|reflexivity].
  rewrite bind_run. intros Hnc.
  pose proof (for_each_settled
                (GenerateArtifact this options (GetFilename (source_path (apk_ this))))
                (artifacts (config options)) s
                (GenerateArtifact_extends this options _)) as Hs.
  destruct (for_each _ _ s) as [[[]|r|f] s1]; simpl in *; [by apply Hs..|].
  by destruct (Hnc f).
Qed.

(** The table [FilterTable] returns is a new object: its place is the
    first free one of the heap, which is not the place of the table it was
    given, and the heap it leaves is the heap it found with that one object
    added. *)
Lemma FilterTable_new_table this artifact cfg old_table filters s p f :
  (FilterTable (R:=bool) this artifact cfg old_table filters s).1 = Next (Some p, f) →
  p = fresh (dom (tables s)) ∧ p ≠ old_table
  ∧ ∃ t, tables (FilterTable (R:=bool) this artifact cfg old_table filters s).2
         = <[p := t]> (tables s).
Proof.
  unfold FilterTable, GetAndroidSdk, ContextWrapper_new, emit_via, VersionCollapser_Consume,
    TableSplitter_SplitTable, Clone, load_table, store_table, emit, ask.
  repeat first
    [ progress run
    | match goal with
      | |- context [match ?x with _ => _ end] =>
          lazymatch x with
          | context [match _ with _ => _ end] => fail
          | _ => destruct x eqn:?
          end
      end ]; try discriminate.
  all: intros [= <- <-]; split_and!; [done | | eexists; by rewrite !insert_insert_eq].
  all: intros <-.
  all: match goal with
       | Hold : tables ?st !! fresh (dom (tables ?st)) = Some _ |- _ =>
           apply (is_fresh (dom (tables st))), elem_of_dom; by eexists
       end.
Qed.

(** C5: the base resource table is never mutated.  [FilterTable] changes
    no table that exists when it is called, and the table it returns is a
    new object, not the base table: what it writes, it writes to the table
    it has cloned.  A run of [FromBaseApk] over any list of artifacts changes
    no table that exists before it, so the base table has after the run the
    content it had before; and when the run returns, the heap of tables as a
    whole is what it was before the run. *)
Theorem base_table_never_mutated
    (this : MultiApkGenerator) (options : MultiApkGeneratorOptions) (s : State) :
  (∀ artifact cfg filters st,
     tables st ⊆
     tables (FilterTable (R:=bool) this artifact cfg (table_ (apk_ this)) filters st).2)
  ∧ (∀ artifact cfg filters st p f,
       (FilterTable (R:=bool) this artifact cfg (table_ (apk_ this)) filters st).1
       = Next (Some p, f) →
       p ≠ table_ (apk_ this) ∧ tables st !! p = None
       ∧ ∃ t, tables (FilterTable (R:=bool) this artifact cfg (table_ (apk_ this))
                        filters st).2 = <[p := t]> (tables st))
  ∧ tables s ⊆ tables (FromBaseApk (R:=bool) this options s).2
  ∧ (∀ base, tables s !! table_ (apk_ this) = Some base →
       tables (FromBaseApk (R:=bool) this options s).2 !! table_ (apk_ this) = Some base)
  ∧ (∀ result, (FromBaseApk (R:=bool) this options s).1 = Next result →
       tables (FromBaseApk (R:=bool) this options s).2 = tables s).
Proof.
  pose proof (FromBaseApk_extends (R:=bool) this options s) as (_&Ht&_).
  split_and!.
  - intros artifact cfg filters st.
    by destruct (FilterTable_adds (R:=bool) this artifact cfg (table_ (apk_ this))
                   filters st) as (_&?&_).
  - intros artifact cfg filters st p f (->&?&?)%FilterTable_new_table.
    split_and!; [done | apply not_elem_of_dom, is_fresh | done].
  - done.
  - intros base Hb. by eapply lookup_weaken.
  - intros result Hr.
    destruct (FromBaseApk_settled (R:=bool) this options s) as (_&?&_); [|done].
    intros f. by rewrite Hr.
Qed.

(** C4: an artifact with neither a name nor a global name template.  When
    the artifacts before it have been processed, the body of the loop
    reports the missing template and returns [false], the run returns
    [false], and the files are those left by the earlier artifacts: none
    is written for this artifact. *)
Theorem missing_name_template_fails
    (this : MultiApkGenerator) (options : MultiApkGeneratorOptions)
    (pre : list Artifact) (artifact : Artifact) (post : list Artifact)
    (s s1 : State) :
  let body := GenerateArtifact this options (GetFilename (source_path (apk_ this))) in
  let failed :=
    with_diagnostics
      (diagnostics s1 ++
       [Error (Msg "Artifact does not have a name and no global name template defined")])
      s1 in
  artifacts (config options) = pre ++ artifact :: post →
  name artifact = None →
  artifact_format (config options) = None →
  is_Some (contexts s !! context_ this) →
  for_each body pre s = (Next tt, s1) →
  body artifact s1 = (Return false, failed)
  ∧ FromBaseApk (R:=bool) this options s = (Next false, failed)
  ∧ files failed = files s1.
Proof.
  intros body failed Harts Hname Hformat Hctx Hpre.
  assert (body artifact s1 = (Return false, failed)) as Hbody.
  { unfold body, GenerateArtifact, ResolveArtifactName.
    rewrite Hname, Hformat. by run. }
  split_and!; try done.
  rewrite FromBaseApk_run by done. fold body.
  rewrite Harts, for_each_app, Hpre. simpl. rewrite bind_run.
  unfold scoped. rewrite Hbody. f_equal.
  apply release_only_reports. repeat split. simpl. by apply prefix_app_r.
Qed.

(** C6: an artifact bound to a resolved SDK group whose manifest has a
    valid [<manifest>] root without a direct unqualified [uses-sdk] child.
    The manifest block completes without a [return]: the manifest it hands
    on is a new document with the content of the base manifest, no message
    is reported, and the body of the loop goes on to the write block with
    that document. *)
Theorem absent_uses_sdk_is_not_an_error
    (this : MultiApkGenerator) (options : MultiApkGeneratorOptions) (artifact : Artifact)
    (group_name : string) (android_sdk : AndroidSdk)
    (document : xml.XmlResource) (root : xml.Element) (s : State) :
  let manifest := fresh (dom (documents s)) in
  let s' := with_documents (<[manifest := document]> (documents s)) s in
  android_sdk_group artifact = Some group_name →
  android_sdk_groups (config options) !! group_name = Some android_sdk →
  documents s !! manifest_ (apk_ this) = Some document →
  xml.root document = Some root →
  xml.namespace_uri root = "" →
  xml.name root = "manifest" →
  xml.FindChild root "" "uses-sdk" = None →
  PatchManifest this artifact (config options) s = (Next (Some manifest), s')
  ∧ documents s' !! manifest = Some document
  ∧ diagnostics s' = diagnostics s
  ∧ ∀ artifact_name table filters,
      (m ← PatchManifest this artifact (config options);
       WriteArtifact this options artifact_name table filters m) s
      = WriteArtifact this options artifact_name table filters (Some manifest) s'.
Proof.
  intros manifest s' Hgroup Hsdk Hdoc Hroot Hns Hname Hchild.
  assert (PatchManifest this artifact (config options) s = (Next (Some manifest), s'))
    as Hrun.
  { unfold PatchManifest. rewrite bind_run, (GetAndroidSdk_found _ _ _ _ _ Hgroup Hsdk).
    unfold InflateManifest, load_document. run. rewrite Hdoc. run.
    rewrite lookup_insert_eq. run. rewrite Hroot. run.
    rewrite Hns, Hname, Hchild. by run. }
  split_and!; try done.
  - simpl. apply lookup_insert_eq.
  - intros artifact_name table filters. by rewrite bind_run, Hrun.
Qed.

(** C7: an artifact bound to an SDK group with minimum version [W], whose
    manifest has a [uses-sdk] element with a [minSdkVersion] attribute of
    compiled value [V].  After the manifest block, the document it hands
    on, a new one, has [W] as the compiled value of that attribute, and
    the base manifest still has [V].  ([TryParseInt] is taken to read back
    the integer [W] from its rendering by [to_string].) *)
Theorem min_sdk_is_patched_in_the_clone
    (this : MultiApkGenerator) (cfg : PostProcessingConfiguration) (artifact : Artifact)
    (group_name : string) (android_sdk : AndroidSdk) (W : Z)
    (document : xml.XmlResource) (attribute : xml.Attribute) (V : option xml.Item)
    (s : State) :
  let manifest := fresh (dom (documents s)) in
  let after := (PatchManifest this artifact cfg s).2 in
  android_sdk_group artifact = Some group_name →
  android_sdk_groups cfg !! group_name = Some android_sdk →
  min_sdk_version android_sdk = Some W →
  TryParseInt (to_string W) = Some (xml.BinaryPrimitive W) →
  documents s !! manifest_ (apk_ this) = Some document →
  xml.min_sdk_attribute document = Some attribute →
  xml.compiled_value attribute = V →
  (PatchManifest this artifact cfg s).1 = Next (Some manifest)
  ∧ manifest ≠ manifest_ (apk_ this)
  ∧ (∃ patched,
       documents after !! manifest = Some patched
       ∧ xml.compiled_value <$> xml.min_sdk_attribute patched
         = Some (Some (xml.BinaryPrimitive W)))
  ∧ documents after !! manifest_ (apk_ this) = Some document
  ∧ xml.compiled_value <$> xml.min_sdk_attribute document = Some V.
Proof.
  intros manifest after Hgroup Hsdk Hmin Hparse Hdoc Hattr HV.
  pose proof Hattr as (root&i&uses_sdk&j&Hroot&Hns&Hname&Hchild&Hfind)%min_sdk_attribute_Some.
  assert (documents s !! manifest = None) as Hfresh by apply not_elem_of_dom, is_fresh.
  assert (manifest ≠ manifest_ (apk_ this)) as Hne by congruence.
  set (patched := xml.assign_compiled_value i j (Some (xml.BinaryPrimitive W)) document).
  assert (PatchManifest this artifact cfg s =
          (Next (Some manifest),
           with_documents (<[manifest := patched]> (<[manifest := document]> (documents s)))
             (with_documents (<[manifest := document]> (documents s)) s))) as Hrun.
  { unfold PatchManifest. rewrite bind_run, (GetAndroidSdk_found _ _ _ _ _ Hgroup Hsdk).
    unfold InflateManifest, load_document. run. rewrite Hdoc. run.
    rewrite lookup_insert_eq. run. rewrite Hroot. run.
    rewrite Hns, Hname, Hchild. run. rewrite Hfind, Hmin. run.
    unfold store_document. simpl. rewrite lookup_insert_eq. by rewrite Hparse. }
  subst after. rewrite Hrun. simpl. split_and!; try done.
  - exists patched. split; [apply lookup_insert_eq|].
    assert (xml.min_sdk_attribute patched
            = Some (xml.set_compiled_value (Some (xml.BinaryPrimitive W)) attribute))
      as ->; [|done].
    apply min_sdk_attribute_Some.
    exists (xml.assign_in_root i j (Some (xml.BinaryPrimitive W)) root), i,
      (xml.assign_in_element j (Some (xml.BinaryPrimitive W)) uses_sdk), j.
    split_and!.
    + unfold patched, xml.assign_compiled_value. simpl. by rewrite Hroot.
    + by destruct root.
    + by destruct root.
    + by apply FindChild_assign.
    + by apply FindAttribute_assign.
  - by rewrite !lookup_insert_ne.
  - by rewrite Hattr, <- HV.
Qed.

(** C8: when the output directory cannot be created, the write block
    reports a warning and goes on: it calls [WriteToArchive] with the
    table, the filter chain, the writer and the manifest of the artifact,
    completes when that call succeeds and returns [false] when it fails;
    the first message it reports is the warning, and no message it reports
    is an error. *)
Theorem unavailable_out_dir_is_a_warning
    (this : MultiApkGenerator) (options : MultiApkGeneratorOptions)
    (file_name : string) (table : loc) (filters : FilterChain) (manifest : option loc)
    (c : Context) (t : ResourceTable) (s : State) :
  let out := AppendPath (out_dir options) file_name in
  let writer := if CreateZipFileArchiveWriter out then Some out else None in
  let document := manifest ≫= λ p, documents s !! p in
  let written :=
    WriteToArchive c t (table_flattener_options options) filters writer document in
  let result := WriteArtifact this options (Some file_name) (Some table) filters manifest s in
  mkdirs (out_dir options) = false →
  contexts s !! context_ this = Some c →
  tables s !! table = Some t →
  (∀ p, manifest = Some p → is_Some (documents s !! p)) →
  result.1 = (if written then Next tt else Return false)
  ∧ ∃ notes,
      diagnostics result.2
      = diagnostics s
        ++ Warn (Msg ("could not create out dir: " +:+ out_dir options)) :: notes
      ∧ Forall (λ d, is_error d = false) notes.
Proof.
  intros out writer document written result Hmkdirs Hctx Htable Hmanifest.
  assert (observe (context_ this) (contexts s) = Some c) as Hobs
    by by apply observe_pointer.
  subst result written document writer out.
  unfold WriteArtifact, file_mkdirs, emit_via, OpenArchiveWriter,
    LoadedApk_WriteToArchive, load_table, load_document, emit.
  rewrite Hmkdirs.
  destruct (verbose c) eqn:Hv;
    destruct (CreateZipFileArchiveWriter _) eqn:Hw;
    (destruct manifest as [m|];
     [destruct (Hmanifest m eq_refl) as [d Hd] | ]);
    repeat first [ rewrite Hctx | rewrite Hv | rewrite Hw | rewrite Hobs
                 | rewrite Htable | rewrite Hd | progress run | progress unfold ask ].
  all: match goal with
       | |- context [WriteToArchive ?a ?b ?c ?d ?e ?f] =>
           destruct (WriteToArchive a b c d e f)
       end; simpl.
  all: split; [done|]; eexists;
    (split; [rewrite <- ?app_assoc; simpl; reflexivity | by repeat constructor]).
Qed.

(** *** Where the code departs from the claims *)

(** A [uses-sdk] element without [android:minSdkVersion]: the test of line
    181 is made where the attribute has just been found, so the error of
    line 182 is never reported.  The manifest block completes, with an
    unpatched document and without a message. *)
Lemma uses_sdk_without_min_sdk_is_silent
    (this : MultiApkGenerator) (cfg : PostProcessingConfiguration) (artifact : Artifact)
    (group_name : string) (android_sdk : AndroidSdk)
    (document : xml.XmlResource) (root uses_sdk : xml.Element) (i : nat) (s : State) :
  let manifest := fresh (dom (documents s)) in
  android_sdk_group artifact = Some group_name →
  android_sdk_groups cfg !! group_name = Some android_sdk →
  documents s !! manifest_ (apk_ this) = Some document →
  xml.root document = Some root →
  xml.namespace_uri root = "" →
  xml.name root = "manifest" →
  xml.FindChild root "" "uses-sdk" = Some (i, uses_sdk) →
  xml.FindAttribute uses_sdk xml.kSchemaAndroid "minSdkVersion" = None →
  PatchManifest this artifact cfg s
  = (Next (Some manifest), with_documents (<[manifest := document]> (documents s)) s).
Proof.
  intros manifest Hgroup Hsdk Hdoc Hroot Hns Hname Hchild Hattr.
  unfold PatchManifest. rewrite bind_run, (GetAndroidSdk_found _ _ _ _ _ Hgroup Hsdk).
  unfold InflateManifest, load_document. run. rewrite Hdoc. run.
  rewrite lookup_insert_eq. run. rewrite Hroot. run.
  rewrite Hns, Hname, Hchild. run. rewrite Hattr. by run.
Qed.

(** An SDK group without a minimum version: the manifest is loaded all the
    same, and where it has the attribute, line 186 reads the value of a
    [Maybe] that holds nothing. *)
Lemma absent_min_sdk_version_is_read
    (this : MultiApkGenerator) (cfg : PostProcessingConfiguration) (artifact : Artifact)
    (group_name : string) (android_sdk : AndroidSdk)
    (document : xml.XmlResource) (attribute : xml.Attribute) (s : State) :
  android_sdk_group artifact = Some group_name →
  android_sdk_groups cfg !! group_name = Some android_sdk →
  min_sdk_version android_sdk = None →
  documents s !! manifest_ (apk_ this) = Some document →
  xml.min_sdk_attribute document = Some attribute →
  PatchManifest this artifact cfg s
  = (Crash AbsentMaybe,
     with_documents (<[fresh (dom (documents s)) := document]> (documents s)) s).
Proof.
  intros Hgroup Hsdk Hmin Hdoc
    (root&i&uses_sdk&j&Hroot&Hns&Hname&Hchild&Hfind)%min_sdk_attribute_Some.
  unfold PatchManifest. rewrite bind_run, (GetAndroidSdk_found _ _ _ _ _ Hgroup Hsdk).
  unfold InflateManifest, load_document. run. rewrite Hdoc. run.
  rewrite lookup_insert_eq. run. rewrite Hroot. run.
  rewrite Hns, Hname, Hchild. run. rewrite Hfind, Hmin. by run.
Qed.

(** A missing ABI group fails the filtering of the table. *)
Lemma missing_abi_group_fails
    (this : MultiApkGenerator) (cfg : PostProcessingConfiguration) (artifact : Artifact)
    (old_table : loc) (filters : FilterChain) (group_name : string)
    (c : Context) (s : State) :
  contexts s !! context_ this = Some c →
  abi_group artifact = Some group_name →
  abi_groups cfg !! group_name = None →
  FilterTable (R:=bool) this artifact cfg old_table filters s
  = (Next (None, filters),
     with_diagnostics
       (diagnostics s ++
        [Error (Msg ("could not find referenced ABI group '" +:+ group_name +:+ "'"))])
       s).
Proof.
  intros Hctx Hgroup Hmissing. unfold FilterTable, ContextWrapper_new, emit_via.
  rewrite Hgroup.
  repeat first [ rewrite Hctx | rewrite Hmissing | progress run | progress unfold ask ].
  done.
Qed.

(** So does a missing screen density group, when the filtering gets to it. *)
Lemma missing_screen_density_group_fails
    (this : MultiApkGenerator) (cfg : PostProcessingConfiguration) (artifact : Artifact)
    (old_table : loc) (filters : FilterChain) (group_name : string)
    (c : Context) (s : State) :
  contexts s !! context_ this = Some c →
  abi_group artifact = None →
  screen_density_group artifact = Some group_name →
  screen_density_groups cfg !! group_name = None →
  FilterTable (R:=bool) this artifact cfg old_table filters s
  = (Next (None, filters),
     with_diagnostics
       (diagnostics s ++
        [Error (Msg ("could not find referenced group '" +:+ group_name +:+ "'"))])
       s).
Proof.
  intros Hctx Habi Hgroup Hmissing. unfold FilterTable, ContextWrapper_new, emit_via.
  rewrite Habi, Hgroup.
  repeat first [ rewrite Hctx | rewrite Hmissing | progress run | progress unfold ask ].
  done.
Qed.

(** And a missing locale group. *)
Lemma missing_locale_group_fails
    (this : MultiApkGenerator) (cfg : PostProcessingConfiguration) (artifact : Artifact)
    (old_table : loc) (filters : FilterChain) (group_name : string)
    (c : Context) (s : State) :
  contexts s !! context_ this = Some c →
  abi_group artifact = None →
  screen_density_group artifact = None →
  locale_group artifact = Some group_name →
  locale_groups cfg !! group_name = None →
  FilterTable (R:=bool) this artifact cfg old_table filters s
  = (Next (None, filters),
     with_diagnostics
       (diagnostics s ++
        [Error (Msg ("could not find referenced group '" +:+ group_name +:+ "'"))])
       s).
Proof.
  intros Hctx Habi Hdensity Hgroup Hmissing.
  unfold FilterTable, ContextWrapper_new, emit_via.
  rewrite Habi, Hdensity, Hgroup.
  repeat first [ rewrite Hctx | rewrite Hmissing | progress run | progress unfold ask ].
  done.
Qed.


End Claims.

(** ** The theorems at work on the scenario *)
Section Witnesses.
Import Scenario.

(** The decimal parser of the scenario reads back every integer from its
    decimal rendering. *)
Lemma parse_decimal_decimal (z : Z) :
  parse_decimal (decimal z) = Some (xml.BinaryPrimitive z).
Proof.
  unfold parse_decimal, decimal. rewrite NilZero.isi.
  - simpl. by rewrite DecimalZ.of_to.
  - destruct z; simpl; try discriminate.
    intros [= Hp]. by apply DecimalPos.Unsigned.to_uint_nonnil in Hp.
  - destruct z; simpl; try discriminate.
    intros [= Hp]. by apply DecimalPos.Unsigned.to_uint_nonnil in Hp.
Qed.

Lemma base_table_never_mutated_witness :
  tables (FromBaseApk (H0:=tools true) (R:=bool) generator three_artifacts
            (initial manifest_with_min_sdk)).2 !! 1%positive
  = Some base_table.
Proof.
  apply (base_table_never_mutated (H0:=tools true) generator three_artifacts
           (initial manifest_with_min_sdk)).
  reflexivity.
Defined.

Lemma missing_name_template_fails_witness :
  FromBaseApk (H0:=tools true) (R:=bool) generator three_artifacts
    (initial manifest_with_min_sdk)
  = (Next false,
     with_diagnostics
       (diagnostics after_first ++
        [Error (Msg "Artifact does not have a name and no global name template defined")])
       after_first).
Proof.
  apply (missing_name_template_fails (H0:=tools true) generator three_artifacts
           [v21] unnamed [plain] (initial manifest_with_min_sdk) after_first).
  - reflexivity.
  - reflexivity.
  - reflexivity.
  - by eexists.
  - vm_compute. reflexivity.
Defined.

Lemma absent_uses_sdk_is_not_an_error_witness :
  PatchManifest (H0:=tools true) generator v21 (config three_artifacts)
    (initial manifest_without_uses_sdk)
  = (Next (Some 2%positive),
     with_documents
       (<[2%positive := manifest_without_uses_sdk]>
          (documents (initial manifest_without_uses_sdk)))
       (initial manifest_without_uses_sdk)).
Proof.
  eapply (absent_uses_sdk_is_not_an_error (H0:=tools true) generator three_artifacts
            v21 "v21" (mkAndroidSdk (Some 21)) manifest_without_uses_sdk).
  - reflexivity.
  - vm_compute. reflexivity.
  - reflexivity.
  - reflexivity.
  - reflexivity.
  - reflexivity.
  - vm_compute. reflexivity.
Defined.

Lemma min_sdk_is_patched_in_the_clone_witness :
  (∃ patched,
     documents (PatchManifest (H0:=tools true) generator v21 (config three_artifacts)
                  (initial manifest_with_min_sdk)).2 !! 2%positive = Some patched
     ∧ xml.compiled_value <$> xml.min_sdk_attribute patched
       = Some (Some (xml.BinaryPrimitive 21)))
  ∧ documents (PatchManifest (H0:=tools true) generator v21 (config three_artifacts)
                 (initial manifest_with_min_sdk)).2 !! 1%positive
    = Some manifest_with_min_sdk
  ∧ xml.compiled_value <$> xml.min_sdk_attribute manifest_with_min_sdk
    = Some (Some (xml.BinaryPrimitive 14)).
Proof.
  eapply (min_sdk_is_patched_in_the_clone (H0:=tools true) generator
            (config three_artifacts) v21 "v21" (mkAndroidSdk (Some 21)) 21
            manifest_with_min_sdk).
  - reflexivity.
  - vm_compute. reflexivity.
  - reflexivity.
  - vm_compute. reflexivity.
  - reflexivity.
  - vm_compute. reflexivity.
  - reflexivity.
Defined.

Lemma unavailable_out_dir_is_a_warning_witness :
  (WriteArtifact (H0:=tools false) generator three_artifacts (Some "v21.apk")
     (Some 2%positive) [] None filtered).1 = Next tt.
Proof.
  apply (unavailable_out_dir_is_a_warning (H0:=tools false) generator three_artifacts
           "v21.apk" 2%positive [] None base_context [21; 26] filtered).
  - reflexivity.
  - reflexivity.
  - vm_compute. reflexivity.
  - intros p Hp. discriminate Hp.
Defined.

End Witnesses.

(** ** The code against the claims, on the scenario *)
Section Divergences.
Import Scenario.

(** C1 (the code does otherwise): an artifact bound to the SDK group
    ["v21"], and a manifest whose [uses-sdk] element has no
    [android:minSdkVersion].  The claim has the run fail with the missing
    attribute reported and nothing written from there on; the code
    reports nothing, writes the archive of this artifact with the
    unpatched manifest, goes on to the next artifact, and returns [true]. *)
Theorem missing_min_sdk_attribute_is_not_reported :
  let uses_sdk :=
    xml.mkElement "" "uses-sdk" 2
      [xml.mkAttribute xml.kSchemaAndroid "targetSdkVersion" "26"
         (Some (xml.BinaryPrimitive 26))] [] in
  let result :=
    FromBaseApk (H0:=tools true) (R:=bool) generator (options_for [v21; plain])
      (initial manifest_without_min_sdk) in
  (xml.root manifest_without_min_sdk ≫= λ r, xml.FindChild r "" "uses-sdk")
  = Some (0%nat, uses_sdk)
  ∧ xml.FindAttribute uses_sdk xml.kSchemaAndroid "minSdkVersion" = None
  ∧ result.1 = Next true
  ∧ diagnostics result.2 = []
  ∧ files result.2 !! "out/v21.apk"
    = Some (Archive (H:=types) [21; 26] [] (Some manifest_without_min_sdk))
  ∧ files result.2 !! "out/plain.apk"
    = Some (Archive (H:=types) [14; 21; 26] [] None).
Proof. vm_compute. by split_and!. Qed.

(** C2 (the code does otherwise on the SDK axis): an artifact that names
    the SDK group ["v99"], which the configuration does not have.  The
    claim has the generation of the artifact fail; the code reports the
    missing group twice, writes the archive of the artifact as if it had
    no SDK group, goes on to the next artifact, and returns [true]. *)
Theorem missing_sdk_group_does_not_fail :
  let result :=
    FromBaseApk (H0:=tools true) (R:=bool) generator (options_for [v99; plain])
      (initial manifest_with_min_sdk) in
  android_sdk_group v99 = Some "v99"
  ∧ sdk_groups !! "v99" = None
  ∧ result.1 = Next true
  ∧ diagnostics result.2
    = [Error (Msg "could not find referenced group 'v99'");
       Error (Msg "could not find referenced group 'v99'")]
  ∧ files result.2 !! "out/v99.apk"
    = Some (Archive (H:=types) [14; 21; 26] [] None)
  ∧ files result.2 !! "out/plain.apk"
    = Some (Archive (H:=types) [14; 21; 26] [] None).
Proof. vm_compute. by split_and!. Qed.

(** C9 (the code does otherwise): an artifact bound to the SDK group
    ["any"], which carries no minimum version, and a manifest that has the
    [android:minSdkVersion] attribute.  The claim has the manifest loaded
    only for a group with a minimum version; the code loads it (the new
    document is in the heap) and reads the absent minimum version. *)
Theorem absent_min_sdk_version_is_read_in_the_patch :
  let result :=
    FromBaseApk (H0:=tools true) (R:=bool) generator (options_for [any_sdk; plain])
      (initial manifest_with_min_sdk) in
  android_sdk_group any_sdk = Some "any"
  ∧ min_sdk_version <$> sdk_groups !! "any" = Some None
  ∧ result.1 = Crash AbsentMaybe
  ∧ documents result.2 !! 2%positive = Some manifest_with_min_sdk
  ∧ files result.2 = ∅.
Proof. vm_compute. by split_and!. Qed.


End Divergences.
(** * Further properties of the generator *)

(** ** The lookup of the SDK group, the wrapper and the naming *)
Section Lookups.
Context `{Collaborators}.

(** X1: [GetAndroidSdk] is a lookup that always completes.  Its result
    is the SDK group the artifact names, when it names one and the
    configuration has it, and no value otherwise.  The state is left as it
    was, but for one error, reported when the group is named and the
    configuration does not have it. *)
Theorem GetAndroidSdk_is_a_lookup {R} (artifact : Artifact)
    (cfg : PostProcessingConfiguration) (s : State) :
  GetAndroidSdk (R:=R) artifact cfg s
  = (Next (bound (android_sdk_group artifact) (android_sdk_groups cfg)),
     match android_sdk_group artifact with
     | Some group_name =>
         match android_sdk_groups cfg !! group_name with
         | Some _ => s
         | None =>
             with_diagnostics
               (diagnostics s ++
                [Error (Msg ("could not find referenced group '" +:+ group_name +:+ "'"))])
               s
         end
     | None => s
     end).
Proof.
  unfold bound. destruct (android_sdk_group artifact) as [g|] eqn:Hg; simpl.
  - destruct (android_sdk_groups cfg !! g) as [sdk|] eqn:Hs.
    + by apply GetAndroidSdk_found with g.
    + by apply GetAndroidSdk_missing.
  - by apply GetAndroidSdk_unbound.
Qed.

Lemma observe_wrapper (w : ContextWrapper) (h : gmap loc Context) c :
  h !! wrapped_ w = Some c →
  observe w h = Some (mkContext (package_type c) (external_symbols c) (diagnostics_sink c)
                        (compilation_package c) (package_id c) (name_mangler c)
                        (verbose c) (min_sdk_ w)).
Proof. intros Hc. unfold observe. simpl. by rewrite Hc. Qed.

(** X2: a context wrapper can be constructed on a live context only.
    Once constructed it wraps that context, it shows through every
    accessor what the context shows, and it holds the minimum SDK version
    the context had at the construction, whatever becomes of the heap of
    contexts afterwards. *)
Theorem new_wrapper_is_transparent (context : loc) (h h' : gmap loc Context)
    (w : ContextWrapper) :
  ContextWrapper_new context h = Some w →
  wrapped_ w = context
  ∧ observe w h = observe context h
  ∧ is_Some (h !! context)
  ∧ GetMinSdkVersion w h' = GetMinSdkVersion context h.
Proof.
  unfold ContextWrapper_new. simpl.
  destruct (h !! context) as [c|] eqn:Hc; [|done]. simpl. intros [= <-]. simpl.
  split_and!; try done.
  rewrite (observe_wrapper _ _ c) by done. rewrite (observe_pointer _ _ c) by done.
  by destruct c.
Qed.

(** The name an artifact is to get *)
Lemma ResolveArtifactName_run (artifact : Artifact) (cfg : PostProcessingConfiguration)
    (apk_name : string) (s : State) :
  ResolveArtifactName artifact cfg apk_name s
  = match name artifact, artifact_format cfg with
    | None, None =>
        (Return false,
         with_diagnostics
           (diagnostics s ++
            [Error (Msg "Artifact does not have a name and no global name template defined")])
           s)
    | Some _, _ =>
        match Artifact_Name artifact apk_name with
        | Some n => (Next (Some n), s)
        | None =>
            (Return false,
             with_diagnostics
               (diagnostics s ++ [Error (Msg "Could not determine split APK artifact name")]) s)
        end
    | None, Some format =>
        match ToArtifactName artifact format apk_name with
        | Some n => (Next (Some n), s)
        | None =>
            (Return false,
             with_diagnostics
               (diagnostics s ++ [Error (Msg "Could not determine split APK artifact name")]) s)
        end
    end.
Proof.
  unfold ResolveArtifactName.
  destruct (name artifact) as [n|]; destruct (artifact_format cfg) as [f|]; run;
    try done.
  - by destruct (Artifact_Name artifact apk_name).
  - by destruct (Artifact_Name artifact apk_name).
  - by destruct (ToArtifactName artifact f apk_name).
Qed.
End Lookups.

(** ** What [FilterTable] computes *)
Section FilterRuns.
Context `{Collaborators}.

Lemma foldl_push_density (acc : list Z) (l : list ConfigDescription) :
  foldl (λ preferred density_config, preferred ++ [density density_config]) acc l
  = acc ++ (density <$> l).
Proof.
  revert acc. induction l as [|d l IH]; intros acc; simpl.
  - by rewrite app_nil_r.
  - by rewrite IH, <- app_assoc.
Qed.

Lemma foldl_AddConfig (acc : AxisConfigFilter) (l : list ConfigDescription) :
  foldl (λ f locale, AddConfig locale f) acc l = acc ++ l.
Proof.
  revert acc. induction l as [|d l IH]; intros acc; simpl.
  - by rewrite app_nil_r.
  - unfold AddConfig at 2. by rewrite IH, <- app_assoc.
Qed.

Lemma resolves_bound {A} (group : option string) (groups : gmap string A) :
  resolves group groups →
  (group = None ∧ bound group groups = None)
  ∨ ∃ g x, group = Some g ∧ groups !! g = Some x ∧ bound group groups = Some x.
Proof.
  intros Hr. destruct group as [g|]; [right|by left].
  destruct (Hr g eq_refl) as [x Hx]. exists g, x. unfold bound. simpl. by rewrite Hx.
Qed.

Lemma FilterTable_run {R} (this : MultiApkGenerator) (artifact : Artifact)
    (cfg : PostProcessingConfiguration) (old_table : loc) (filters : FilterChain)
    (c : Context) (base : ResourceTable) (s : State) :
  let chain :=
    filters ++ match bound (abi_group artifact) (abi_groups cfg) with
               | Some abis => [AbiFilter abis]
               | None => []
               end in
  let splits :=
    mkSplits
      (match bound (screen_density_group artifact) (screen_density_groups cfg) with
       | Some densities => density <$> densities
       | None => []
       end)
      (bound (locale_group artifact) (locale_groups cfg)) in
  let min_sdk :=
    default (min_sdk_version_ c)
            (bound (android_sdk_group artifact) (android_sdk_groups cfg) ≫= min_sdk_version) in
  let p := fresh (dom (tables s)) in
  let collapsed := Consume (seen_through c min_sdk) base in
  contexts s !! context_ this = Some c →
  tables s !! old_table = Some base →
  resolves (abi_group artifact) (abi_groups cfg) →
  resolves (screen_density_group artifact) (screen_density_groups cfg) →
  resolves (locale_group artifact) (locale_groups cfg) →
  resolves (android_sdk_group artifact) (android_sdk_groups cfg) →
  FilterTable (R:=R) this artifact cfg old_table filters s
  = if collapsed.1
    then (Next (Some p, chain),
          with_tables (<[p := SplitTable splits collapsed.2]> (tables s)) s)
    else (Next (None, chain),
          with_diagnostics
            (diagnostics s ++ [Error (Msg "Failed to strip versioned resources")]) s).
Proof.
  intros chain splits min_sdk p collapsed Hctx Hold Habi Hdensity Hlocale Hsdk.
  assert (tables s !! p = None) as Hfresh by apply not_elem_of_dom, is_fresh.
  subst chain splits min_sdk collapsed.
  destruct (resolves_bound _ _ Habi) as [[Ea ->]|(ga&abis&Ea&Eal&->)];
  destruct (resolves_bound _ _ Hdensity) as [[Ed ->]|(gd&ds&Ed&Edl&->)];
  destruct (resolves_bound _ _ Hlocale) as [[El ->]|(gl&ls&El&Ell&->)];
  destruct (resolves_bound _ _ Hsdk) as [[Es ->]|(gs&sdk&Es&Esl&->)].
  all: unfold FilterTable, ContextWrapper_new, emit_via, VersionCollapser_Consume,
         TableSplitter_SplitTable, Clone, load_table, store_table, emit.
  all: try destruct (min_sdk_version sdk) as [min_sdk|] eqn:Emin.
  all: unfold seen_through; simpl; rewrite ?Emin; simpl.
  all: rewrite Ea, Ed, El.
  all: repeat first
         [ progress run
         | progress unfold ask
         | rewrite (GetAndroidSdk_unbound _ _ _ Es)
         | rewrite (GetAndroidSdk_found _ _ _ _ _ Es Esl)
         | rewrite (observe_wrapper _ _ c) by (simpl; done)
         | rewrite lookup_insert_eq
         | match goal with E : _ = Some _ |- _ => rewrite E end
         | match goal with E : _ = None |- _ => rewrite E end ].
  all: match goal with
       | |- context [negb (Consume ?v ?b).1] => destruct (Consume v b) as [[] collapsed]
       end.
  all: repeat first
         [ progress run
         | progress unfold ask
         | rewrite lookup_insert_eq
         | match goal with E : _ = Some _ |- _ => rewrite E end
         | match goal with E : _ = None |- _ => rewrite E end ].
  all: unfold destroy_table, with_tables, with_diagnostics, AddFilter; simpl.
  all: rewrite ?insert_insert_eq, ?(delete_insert_id _ _ _ Hfresh), ?foldl_push_density,
         ?foldl_AddConfig, ?app_nil_r; simpl.
  all: try reflexivity.
Qed.
End FilterRuns.

(** ** What the write block does *)
Section WriteRuns.
Context `{Collaborators}.

Lemma WriteArtifact_run (this : MultiApkGenerator) (options : MultiApkGeneratorOptions)
    (file_name : string) (table : loc) (filters : FilterChain) (manifest : option loc)
    (c : Context) (t : ResourceTable) (s : State) :
  let out := AppendPath (out_dir options) file_name in
  let writer := if CreateZipFileArchiveWriter out then Some out else None in
  let document := manifest ≫= λ p, documents s !! p in
  let written :=
    WriteToArchive c t (table_flattener_options options) filters writer document in
  contexts s !! context_ this = Some c →
  tables s !! table = Some t →
  (∀ p, manifest = Some p → is_Some (documents s !! p)) →
  WriteArtifact this options (Some file_name) (Some table) filters manifest s
  = (if written then Next tt else Return false,
     with_files
       (match writer with
        | Some path =>
            if written then <[path := Archive t filters document]> (files s)
            else <[path := Created]> (files s)
        | None => files s
        end)
       (with_diagnostics
          (diagnostics s
           ++ (if mkdirs (out_dir options) then []
               else [Warn (Msg ("could not create out dir: " +:+ out_dir options))])
           ++ (if verbose c
               then [Note (Msg ("Generating split: " +:+ out));
                     Note (Msg ("Writing output: " +:+ out))]
               else []))
          (with_directories (directories s ∪ made_by_mkdirs (out_dir options)) s))).
Proof.
  intros out writer document written Hctx Htable Hmanifest.
  assert (observe (context_ this) (contexts s) = Some c) as Hobs
    by by apply observe_pointer.
  subst written document writer out.
  unfold WriteArtifact, file_mkdirs, emit_via, OpenArchiveWriter,
    LoadedApk_WriteToArchive, load_table, load_document, emit.
  destruct (mkdirs (out_dir options)) eqn:Hmk;
    destruct (verbose c) eqn:Hv;
    destruct (CreateZipFileArchiveWriter _) eqn:Hw;
    (destruct manifest as [m|];
     [destruct (Hmanifest m eq_refl) as [d Hd] | ]);
    repeat first [ rewrite Hctx | rewrite Hv | rewrite Hw | rewrite Hobs
                 | rewrite Htable | rewrite Hd | progress run | progress unfold ask ].
  all: match goal with
       | |- context [WriteToArchive ?a ?b ?c ?d ?e ?f] =>
           destruct (WriteToArchive a b c d e f)
       end; simpl.
  all: unfold with_files, with_diagnostics, with_directories; simpl.
  all: rewrite ?insert_insert_eq, <- ?app_assoc, ?app_nil_r; simpl.
  all: try reflexivity.
  all: by destruct s.
Qed.
End WriteRuns.

(** ** Runs that do not fault *)

(** Symbolic execution by cases on what the statements test. *)
Ltac split_cases :=
  repeat first
    [ progress run
    | match goal with
      | |- context [match ?x with _ => _ end] =>
          lazymatch x with
          | context [match _ with _ => _ end] => fail
          | _ => destruct x eqn:?
          end
      end ].

Section SafeFilter.
Context `{Collaborators}.

Lemma FilterTable_safe (this : MultiApkGenerator) (artifact : Artifact)
    (cfg : PostProcessingConfiguration) (old_table : loc) (filters : FilterChain)
    (s : State) :
  is_Some (contexts s !! context_ this) →
  is_Some (tables s !! old_table) →
  ∃ result chain,
    (FilterTable (R:=bool) this artifact cfg old_table filters s).1 = Next (result, chain)
    ∧ ∀ p, result = Some p →
           is_Some (tables (FilterTable (R:=bool) this artifact cfg old_table filters s).2 !! p).
Proof.
  intros [c Hctx] [base Hold].
  unfold FilterTable, GetAndroidSdk, ContextWrapper_new, emit_via, VersionCollapser_Consume,
    TableSplitter_SplitTable, Clone, load_table, store_table, emit, ask.
  destruct (abi_group artifact), (screen_density_group artifact),
    (locale_group artifact), (android_sdk_group artifact).
  all: repeat first
    [ rewrite Hctx | rewrite Hold | rewrite lookup_insert_eq
    | rewrite (observe_wrapper _ _ c) by (simpl; done)
    | progress run
    | match goal with
      | |- context [match ?x with _ => _ end] =>
          lazymatch x with
          | context [match _ with _ => _ end] => fail
          | _ => destruct x eqn:?
          end
      end ].
  all: try (eexists _, _; split; [reflexivity|]; intros p' [= <-]; simpl;
            rewrite ?lookup_insert_eq; by eexists).
  all: try (eexists _, _; split; [reflexivity|]; by intros p' [=]).
  all: simpl in *; congruence.
Qed.
End SafeFilter.

Section SafePatch.
Context `{Collaborators}.

Lemma PatchManifest_safe (this : MultiApkGenerator) (artifact : Artifact)
    (cfg : PostProcessingConfiguration) (s : State) :
  (∀ sdk, bound (android_sdk_group artifact) (android_sdk_groups cfg) = Some sdk →
          is_Some (min_sdk_version sdk)) →
  (∀ f, (PatchManifest this artifact cfg s).1 ≠ Crash f)
  ∧ ∀ m, (PatchManifest this artifact cfg s).1 = Next (Some m) →
         is_Some (documents (PatchManifest this artifact cfg s).2 !! m).
Proof.
  unfold bound. intros Hmin.
  unfold PatchManifest, GetAndroidSdk, InflateManifest, load_document, store_document, emit.
  destruct (android_sdk_group artifact) as [g|]; simpl in Hmin.
  2: { run. split; [done|]. by intros m [=]. }
  destruct (android_sdk_groups cfg !! g) as [sdk|] eqn:Hsdk.
  2: { run. rewrite Hsdk. run. split; [done|]. by intros m [=]. }
  destruct (Hmin sdk eq_refl) as [w Hw].
  repeat first
    [ rewrite Hsdk | rewrite Hw | rewrite lookup_insert_eq
    | progress run
    | match goal with
      | |- context [match ?x with _ => _ end] =>
          lazymatch x with
          | context [match _ with _ => _ end] => fail
          | _ => destruct x eqn:?
          end
      end ].
  all: try (split; [done|]; by intros m [=]).
  all: try (split; [done|]; intros m [= <-]; simpl; rewrite ?lookup_insert_eq; by eexists).
Qed.
End SafePatch.

Section Safety.
Context `{Collaborators}.

Lemma scoped_outcome {R A} (body : M R A) (s : State) : (scoped body s).1 = (body s).1.
Proof. unfold scoped. by destruct (body s) as [[?|?|?] ?]. Qed.

Lemma GenerateArtifact_safe (this : MultiApkGenerator) (options : MultiApkGeneratorOptions)
    (apk_name : string) (artifact : Artifact) (s : State) :
  is_Some (contexts s !! context_ this) →
  is_Some (tables s !! table_ (apk_ this)) →
  has_min_sdk (config options) artifact →
  ∀ f, (GenerateArtifact this options apk_name artifact s).1 ≠ Crash f.
Proof.
  intros Hctx Hbase Hmin f. unfold GenerateArtifact.
  rewrite bind_run, ResolveArtifactName_run.
  assert (∀ n,
    ((FilterTable this artifact (config options) (table_ (apk_ this)) []
      ≫= λ '(table, filters),
           when (is_null table) (return_ false);;
           manifest ← PatchManifest this artifact (config options);
           WriteArtifact this options (Some n) table filters manifest) s).1 ≠ Crash f)
    as Hrest.
  { intros n. rewrite bind_run.
    destruct (FilterTable_safe this artifact (config options) (table_ (apk_ this)) [] s
                Hctx Hbase) as (result&chain&Hres&Hvalid).
    pose proof (FilterTable_adds (R:=bool) this artifact (config options)
                  (table_ (apk_ this)) [] s) as (Hc1&_&_&_&_&_).
    destruct (FilterTable _ _ _ _ _ s) as [o s1]. simpl in *. subst o.
    destruct result as [p|]; [|done]. run.
    destruct (Hvalid p eq_refl) as [t Ht].
    destruct (PatchManifest_safe this artifact (config options) s1 Hmin) as [Hnc Hdoc].
    pose proof (PatchManifest_adds this artifact (config options) s1) as (Hc2&Ht2&_&_&_&_).
    destruct (PatchManifest _ _ _ s1) as [[manifest|r|f'] s2]; simpl in *;
      [|done|by destruct (Hnc f')].
    destruct Hctx as [c Hctx].
    rewrite (WriteArtifact_run this options n p chain manifest c t s2).
    - simpl. by destruct (WriteToArchive _ _ _ _ _ _).
    - by rewrite Hc2, Hc1.
    - by rewrite Ht2.
    - intros m ->. by apply Hdoc. }
  destruct (name artifact), (artifact_format (config options)); try done.
  - destruct (Artifact_Name _ _); [apply Hrest | done].
  - destruct (Artifact_Name _ _); [apply Hrest | done].
  - destruct (ToArtifactName _ _ _); [apply Hrest | done].
Qed.

Lemma for_each_safe (this : MultiApkGenerator) (options : MultiApkGeneratorOptions)
    (apk_name : string) (xs : list Artifact) (s : State) :
  is_Some (contexts s !! context_ this) →
  is_Some (tables s !! table_ (apk_ this)) →
  Forall (has_min_sdk (config options)) xs →
  ∀ f, (for_each (GenerateArtifact this options apk_name) xs s).1 ≠ Crash f.
Proof.
  intros Hctx Hbase Hxs. revert s Hctx Hbase.
  induction Hxs as [|x xs Hx Hxs IH]; intros s Hctx Hbase f; simpl; [done|].
  rewrite bind_run.
  pose proof (GenerateArtifact_safe this options apk_name x s Hctx Hbase Hx) as Hsafe.
  pose proof (scoped_outcome (GenerateArtifact this options apk_name x) s) as Ho.
  pose proof (scoped_settled (GenerateArtifact this options apk_name x) s
                (GenerateArtifact_extends this options apk_name x)) as Hs.
  destruct (scoped _ s) as [[[]|r|f'] s1]; simpl in *.
  - destruct Hs as (Hc&Ht&_); [done|]. apply IH; by rewrite ?Hc, ?Ht.
  - done.
  - by destruct (Hsafe f').
Qed.

(** X3: a run reads no absent value and follows no null pointer, and
    returns a result, when the build context and the base table exist and
    every SDK group that an artifact names and the configuration has
    carries a minimum version. *)
Theorem FromBaseApk_never_faults (this : MultiApkGenerator)
    (options : MultiApkGeneratorOptions) (s : State) :
  is_Some (contexts s !! context_ this) →
  is_Some (tables s !! table_ (apk_ this)) →
  Forall (has_min_sdk (config options)) (artifacts (config options)) →
  ∃ result, (FromBaseApk (R:=bool) this options s).1 = Next result.
Proof.
  intros Hctx Hbase Hmin. rewrite FromBaseApk_run by done.
  pose proof (for_each_safe this options (GetFilename (source_path (apk_ this)))
                (artifacts (config options)) s Hctx Hbase Hmin) as Hsafe.
  destruct (for_each _ _ s) as [[[]|r|f] s1]; simpl in *; [by eexists..|].
  by destruct (Hsafe f).
Qed.
End Safety.

(** ** Artifacts do not depend on one another *)
Section DeterminedRules.
Context `{ExternalTypes}.

Lemma determined_ret {R A} (a : A) : heap_determined (mret a : M R A).
Proof. by intros s s' Hs. Qed.
Lemma determined_return {R A} (r : R) : heap_determined (return_ r : M R A).
Proof. by intros s s' Hs. Qed.
Lemma determined_crash {R A} f : heap_determined (crash f : M R A).
Proof. by intros s s' Hs. Qed.
Lemma determined_bind {R A B} (m : M R A) (k : A → M R B) :
  heap_determined m → (∀ a, heap_determined (k a)) → heap_determined (m ≫= k).
Proof.
  intros Hm Hk s s' Hs. specialize (Hm s s' Hs). unfold mbind, M_bind.
  destruct (m s) as [[a|r|f] s1], (m s') as [[a'|r'|f'] s1']; simpl in *;
    destruct Hm as [Ho Hs1]; try discriminate; simplify_eq; try done.
  by apply Hk.
Qed.
Lemma determined_when {R} c (m : M R unit) : heap_determined m → heap_determined (when c m).
Proof. destruct c; [done|]. intros _. apply determined_ret. Qed.
Lemma determined_call {R R'} (m : M R' R') :
  heap_determined m → heap_determined (call m : M R R').
Proof.
  intros Hm s s' Hs. specialize (Hm s s' Hs). unfold call.
  destruct (m s) as [[a|r|f] s1], (m s') as [[a'|r'|f'] s1']; simpl in *;
    destruct Hm as [Ho Hs1]; try discriminate; simplify_eq; done.
Qed.
Lemma determined_value {R A} (o : option A) : heap_determined (value o : M R A).
Proof. destruct o; [apply determined_ret | apply determined_crash]. Qed.
Lemma determined_deref {R A} (o : option A) : heap_determined (deref o : M R A).
Proof. destruct o; [apply determined_ret | apply determined_crash]. Qed.
Lemma determined_ask {R A} (f : gmap loc Context → option A) : heap_determined (ask f : M R A).
Proof. intros s s' (Hc&?&?). unfold ask. rewrite Hc. by destruct (f _). Qed.
Lemma determined_emit {R} d : heap_determined (emit d : M R unit).
Proof. by intros s s' Hs. Qed.
Lemma determined_load_table {R} p : heap_determined (load_table p : M R _).
Proof. intros s s' (?&Ht&?). unfold load_table. rewrite Ht. by destruct (_ !! _). Qed.
Lemma determined_store_table {R} p t : heap_determined (store_table p t : M R _).
Proof.
  intros s s' (?&Ht&?). unfold store_table. rewrite Ht.
  destruct (_ !! _); [|done]. split; [done|]. repeat split; simpl; congruence.
Qed.
Lemma determined_load_document {R} p : heap_determined (load_document p : M R _).
Proof. intros s s' (?&?&Hd). unfold load_document. rewrite Hd. by destruct (_ !! _). Qed.
Lemma determined_store_document {R} p d : heap_determined (store_document p d : M R _).
Proof.
  intros s s' (?&?&Hd). unfold store_document. rewrite Hd.
  destruct (_ !! _); [|done]. split; [done|]. repeat split; simpl; congruence.
Qed.
Lemma determined_destroy_table {R} p : heap_determined (destroy_table p : M R _).
Proof. intros s s' (?&Ht&?). split; [done|]. repeat split; simpl; congruence. Qed.
Lemma determined_Clone {R} p : heap_determined (Clone p : M R _).
Proof.
  intros s s' (?&Ht&?). unfold Clone. rewrite Ht.
  destruct (_ !! _); [|done]. split; [done|]. repeat split; simpl; congruence.
Qed.
Lemma determined_InflateManifest {R} apk c : heap_determined (InflateManifest apk c : M R _).
Proof.
  intros s s' (?&?&Hd). unfold InflateManifest. rewrite Hd.
  destruct (_ !! _); [|done]. split; [done|]. repeat split; simpl; congruence.
Qed.
Lemma determined_scoped {R A} (m : M R A) : heap_determined m → heap_determined (scoped m).
Proof.
  intros Hm s s' Hs. specialize (Hm s s' Hs). unfold scoped.
  destruct Hs as (Hc&Ht&Hd).
  destruct (m s) as [[a|r|f] s1], (m s') as [[a'|r'|f'] s1']; simpl in *;
    destruct Hm as [Ho (Hc1&Ht1&Hd1)]; try discriminate; simplify_eq; split; try done.
  all: unfold release, same_heaps; simpl; by rewrite Hc1, Ht, Ht1, Hd, Hd1.
Qed.
Lemma determined_for_each {R A} (body : A → M R unit) xs :
  (∀ x, heap_determined (body x)) → heap_determined (for_each body xs).
Proof.
  intros Hb. induction xs as [|x xs IH]; simpl.
  - apply determined_ret.
  - apply determined_bind; [by apply determined_scoped | done].
Qed.
End DeterminedRules.

Ltac determined_step :=
  lazymatch goal with
  | |- heap_determined (mbind _ _) => apply determined_bind; [| intros ?]
  | |- heap_determined (mret _) => apply determined_ret
  | |- heap_determined (return_ _) => apply determined_return
  | |- heap_determined (crash _) => apply determined_crash
  | |- heap_determined (when _ _) => apply determined_when
  | |- heap_determined (call _) => apply determined_call
  | |- heap_determined (value _) => apply determined_value
  | |- heap_determined (deref _) => apply determined_deref
  | |- heap_determined (ask _) => apply determined_ask
  | |- heap_determined (emit _) => apply determined_emit
  | |- heap_determined (emit_via _ _) => unfold emit_via
  | |- heap_determined (load_table _) => apply determined_load_table
  | |- heap_determined (store_table _ _) => apply determined_store_table
  | |- heap_determined (load_document _) => apply determined_load_document
  | |- heap_determined (store_document _ _) => apply determined_store_document
  | |- heap_determined (destroy_table _) => apply determined_destroy_table
  | |- heap_determined (Clone _) => apply determined_Clone
  | |- heap_determined (InflateManifest _ _) => apply determined_InflateManifest
  | |- heap_determined (match ?x with _ => _ end) => destruct x
  end.

Section Independence.
Context `{Collaborators}.

Lemma GenerateArtifact_determined this options apk_name artifact :
  heap_determined (GenerateArtifact this options apk_name artifact).
Proof.
  unfold GenerateArtifact, ResolveArtifactName, FilterTable, PatchManifest,
    GetAndroidSdk, WriteArtifact, LoadedApk_WriteToArchive, VersionCollapser_Consume,
    TableSplitter_SplitTable.
  repeat determined_step.
  - by intros st st' Hs.
  - intros st st' Hs. unfold OpenArchiveWriter.
    by destruct (CreateZipFileArchiveWriter _).
  - by intros st st' Hs.
Qed.

Lemma settled_same_heaps (s s' : State) : settled s s' → same_heaps s' s.
Proof. by intros (?&?&?&_). Qed.

(** The outcome of the loop is the outcome of the first body that does not
    complete, each body run from the state the loop starts in. *)
Lemma for_each_outcome (this : MultiApkGenerator) (options : MultiApkGeneratorOptions)
    (apk_name : string) (x : Artifact) (rest : list Artifact) (s : State) :
  let body := GenerateArtifact this options apk_name in
  (for_each body (x :: rest) s).1
  = match (body x s).1 with
    | Next _ => (for_each body rest s).1
    | Return r => Return r
    | Crash f => Crash f
    end.
Proof.
  intros body. simpl. rewrite bind_run.
  pose proof (scoped_outcome (body x) s) as Ho.
  pose proof (scoped_settled (body x) s (GenerateArtifact_extends this options apk_name x))
    as Hs.
  destruct (scoped (body x) s) as [[[]|r|f] s1]; simpl in *; rewrite <- Ho; [|done..].
  apply (determined_for_each body rest).
  - intros a. apply GenerateArtifact_determined.
  - apply settled_same_heaps, Hs. done.
Qed.

Lemma for_each_completes (this : MultiApkGenerator) (options : MultiApkGeneratorOptions)
    (apk_name : string) (xs : list Artifact) (s : State) :
  (for_each (GenerateArtifact this options apk_name) xs s).1 = Next tt
  ↔ Forall (λ x, (GenerateArtifact this options apk_name x s).1 = Next tt) xs.
Proof.
  induction xs as [|x xs IH].
  - split; [by constructor | done].
  - rewrite for_each_outcome, Forall_cons, <- IH.
    destruct (GenerateArtifact this options apk_name x s).1 as [[]|r|f].
    + split; [done | by intros [_ ?]].
    + split; [done | by intros [? _]].
    + split; [done | by intros [? _]].
Qed.

Lemma for_each_first_return (this : MultiApkGenerator) (options : MultiApkGeneratorOptions)
    (apk_name : string) (pre : list Artifact) (a : Artifact) (post : list Artifact)
    (r : bool) (s : State) :
  Forall (λ x, (GenerateArtifact this options apk_name x s).1 = Next tt) pre →
  (GenerateArtifact this options apk_name a s).1 = Return r →
  (for_each (GenerateArtifact this options apk_name) (pre ++ a :: post) s).1 = Return r.
Proof.
  intros Hpre Ha. induction Hpre as [|x pre Hx Hpre IH]; simpl app.
  - by rewrite for_each_outcome, Ha.
  - by rewrite for_each_outcome, Hx.
Qed.

(** X4: the artifacts are processed independently of one another.  The
    run returns [true] exactly when the body of the loop, run on each
    artifact from the state the run starts in, completes; and it returns
    [false] when the body, run from that state, completes on the artifacts
    before one on which it executes a [return].  What an earlier artifact
    has reported or written does not change the outcome of a later one. *)
Theorem artifacts_are_processed_independently (this : MultiApkGenerator)
    (options : MultiApkGeneratorOptions) (s : State) :
  let body := GenerateArtifact this options (GetFilename (source_path (apk_ this))) in
  is_Some (contexts s !! context_ this) →
  ((FromBaseApk (R:=bool) this options s).1 = Next true
   ↔ Forall (λ a, (body a s).1 = Next tt) (artifacts (config options)))
  ∧ ∀ pre a post r,
      artifacts (config options) = pre ++ a :: post →
      Forall (λ x, (body x s).1 = Next tt) pre →
      (body a s).1 = Return r →
      (FromBaseApk (R:=bool) this options s).1 = Next false.
Proof.
  intros body Hctx. rewrite FromBaseApk_run by done. subst body. split.
  - rewrite <- for_each_completes.
    pose proof (returns_for_each (λ r, r = false)
                  (GenerateArtifact this options (GetFilename (source_path (apk_ this))))
                  (artifacts (config options))
                  (GenerateArtifact_returns_false this options _) s) as Hret.
    destruct (for_each _ _ s) as [[[]|r|f] s1]; simpl in *; [done| |done].
    by rewrite (Hret r eq_refl).
  - intros pre a post r Harts Hpre Ha. rewrite Harts.
    pose proof (for_each_first_return this options _ pre a post r s Hpre Ha) as Hfe.
    assert (r = false) as ->.
    { apply (GenerateArtifact_returns_false this options
               (GetFilename (source_path (apk_ this))) a s). by rewrite Ha. }
    destruct (for_each _ _ s) as [[[]|r|f] s1]; simpl in *; by simplify_eq.
Qed.
End Independence.

(** ** Groups the configuration does not have *)
Section MissingGroups.
Context `{Collaborators}.

Lemma ResolveArtifactName_named artifact cfg apk_name n s :
  candidate_name artifact cfg apk_name = Some n →
  ResolveArtifactName artifact cfg apk_name s = (Next (Some n), s).
Proof.
  unfold candidate_name. intros Hn. rewrite ResolveArtifactName_run.
  destruct (name artifact), (artifact_format cfg); simpl in Hn; by rewrite ?Hn.
Qed.

(** The body of the loop after the naming, when the filtering has returned null. *)
Lemma GenerateArtifact_unfiltered this options apk_name artifact n chain s s' :
  candidate_name artifact (config options) apk_name = Some n →
  FilterTable (R:=bool) this artifact (config options) (table_ (apk_ this)) [] s
  = (Next (None, chain), s') →
  GenerateArtifact this options apk_name artifact s = (Return false, s').
Proof.
  intros Hn Hf. unfold GenerateArtifact.
  rewrite bind_run, (ResolveArtifactName_named _ _ _ n) by done.
  by rewrite bind_run, Hf.
Qed.

Lemma FilterTable_missing_density {R} this artifact cfg old_table filters group_name c s :
  contexts s !! context_ this = Some c →
  resolves (abi_group artifact) (abi_groups cfg) →
  screen_density_group artifact = Some group_name →
  screen_density_groups cfg !! group_name = None →
  FilterTable (R:=R) this artifact cfg old_table filters s
  = (Next (None, filters ++ match bound (abi_group artifact) (abi_groups cfg) with
                            | Some abis => [AbiFilter abis]
                            | None => []
                            end),
     with_diagnostics
       (diagnostics s ++
        [Error (Msg ("could not find referenced group '" +:+ group_name +:+ "'"))]) s).
Proof.
  intros Hctx Habi Hg Hmissing.
  destruct (resolves_bound _ _ Habi) as [[Ea ->]|(ga&abis&Ea&Eal&->)].
  all: unfold FilterTable, ContextWrapper_new, emit_via, AddFilter.
  all: rewrite Ea, Hg.
  all: repeat first [ rewrite Hctx | rewrite Hmissing | rewrite Eal | progress run
                    | progress unfold ask ].
  all: by rewrite ?app_nil_r.
Qed.

Lemma FilterTable_missing_locale {R} this artifact cfg old_table filters group_name c s :
  contexts s !! context_ this = Some c →
  resolves (abi_group artifact) (abi_groups cfg) →
  resolves (screen_density_group artifact) (screen_density_groups cfg) →
  locale_group artifact = Some group_name →
  locale_groups cfg !! group_name = None →
  FilterTable (R:=R) this artifact cfg old_table filters s
  = (Next (None, filters ++ match bound (abi_group artifact) (abi_groups cfg) with
                            | Some abis => [AbiFilter abis]
                            | None => []
                            end),
     with_diagnostics
       (diagnostics s ++
        [Error (Msg ("could not find referenced group '" +:+ group_name +:+ "'"))]) s).
Proof.
  intros Hctx Habi Hdensity Hg Hmissing.
  destruct (resolves_bound _ _ Habi) as [[Ea ->]|(ga&abis&Ea&Eal&->)];
  destruct (resolves_bound _ _ Hdensity) as [[Ed _]|(gd&ds&Ed&Edl&_)].
  all: unfold FilterTable, ContextWrapper_new, emit_via, AddFilter.
  all: rewrite Ea, Ed, Hg.
  all: repeat first [ rewrite Hctx | rewrite Hmissing | rewrite Eal | rewrite Edl
                    | progress run | progress unfold ask ].
  all: by rewrite ?app_nil_r.
Qed.

(** X5: an artifact that names an ABI group the configuration does not
    have.  The body of the loop reports the missing ABI group and returns
    [false]; the state is otherwise as it was: no table is cloned, no
    manifest loaded, no file written. *)
Theorem missing_abi_group_fails_the_artifact this options apk_name artifact n group_name c s :
  candidate_name artifact (config options) apk_name = Some n →
  contexts s !! context_ this = Some c →
  abi_group artifact = Some group_name →
  abi_groups (config options) !! group_name = None →
  GenerateArtifact this options apk_name artifact s
  = (Return false,
     with_diagnostics
       (diagnostics s ++
        [Error (Msg ("could not find referenced ABI group '" +:+ group_name +:+ "'"))]) s).
Proof.
  intros Hn Hctx Hg Hmissing. eapply GenerateArtifact_unfiltered; [done|].
  by eapply missing_abi_group_fails.
Qed.

(** X6: an artifact whose ABI group, if it names one, exists, and that
    names a screen density group the configuration does not have.  The
    body of the loop reports the missing group and returns [false]; the
    state is otherwise as it was. *)
Theorem missing_density_group_fails_the_artifact
    this options apk_name artifact n group_name c s :
  candidate_name artifact (config options) apk_name = Some n →
  contexts s !! context_ this = Some c →
  resolves (abi_group artifact) (abi_groups (config options)) →
  screen_density_group artifact = Some group_name →
  screen_density_groups (config options) !! group_name = None →
  GenerateArtifact this options apk_name artifact s
  = (Return false,
     with_diagnostics
       (diagnostics s ++
        [Error (Msg ("could not find referenced group '" +:+ group_name +:+ "'"))]) s).
Proof.
  intros Hn Hctx Habi Hg Hmissing. eapply GenerateArtifact_unfiltered; [done|].
  by eapply FilterTable_missing_density.
Qed.

(** X7: an artifact whose ABI and screen density groups, if it names
    them, exist, and that names a locale group the configuration does not
    have.  The body of the loop reports the missing group and returns
    [false]; the state is otherwise as it was. *)
Theorem missing_locale_group_fails_the_artifact
    this options apk_name artifact n group_name c s :
  candidate_name artifact (config options) apk_name = Some n →
  contexts s !! context_ this = Some c →
  resolves (abi_group artifact) (abi_groups (config options)) →
  resolves (screen_density_group artifact) (screen_density_groups (config options)) →
  locale_group artifact = Some group_name →
  locale_groups (config options) !! group_name = None →
  GenerateArtifact this options apk_name artifact s
  = (Return false,
     with_diagnostics
       (diagnostics s ++
        [Error (Msg ("could not find referenced group '" +:+ group_name +:+ "'"))]) s).
Proof.
  intros Hn Hctx Habi Hdensity Hg Hmissing. eapply GenerateArtifact_unfiltered; [done|].
  by eapply FilterTable_missing_locale.
Qed.
End MissingGroups.

(** ** The filtered table and the exits of the manifest block *)
Section Exits.
Context `{Collaborators}.

Lemma FilterTable_resolved {R} this artifact cfg old_table filters c base s :
  let p := fresh (dom (tables s)) in
  let collapsed := Consume (seen_through c (effective_min_sdk artifact cfg c)) base in
  contexts s !! context_ this = Some c →
  tables s !! old_table = Some base →
  references_resolve artifact cfg →
  FilterTable (R:=R) this artifact cfg old_table filters s
  = if collapsed.1
    then (Next (Some p, chain_of artifact cfg filters),
          with_tables (<[p := SplitTable (splits_of artifact cfg) collapsed.2]> (tables s)) s)
    else (Next (None, chain_of artifact cfg filters),
          with_diagnostics
            (diagnostics s ++ [Error (Msg "Failed to strip versioned resources")]) s).
Proof.
  intros p collapsed Hctx Hold (?&?&?&?). by apply FilterTable_run.
Qed.

(** X8: what [FilterTable] computes when the groups the artifact names
    exist and the version collapser succeeds.  It returns a new table: the
    base table collapsed for the minimum SDK version of the SDK group (of
    the build context, when the artifact names no SDK group or the group
    carries no version), then split with the densities of the density
    group as preferred densities and the configurations of the locale
    group as configuration filter.  The filter chain is extended by the
    ABI filter of the ABI group, when the artifact names one.  Nothing
    else changes: no message is reported. *)
Theorem FilterTable_filters_a_clone this artifact cfg old_table filters c base s :
  let p := fresh (dom (tables s)) in
  let collapsed := Consume (seen_through c (effective_min_sdk artifact cfg c)) base in
  contexts s !! context_ this = Some c →
  tables s !! old_table = Some base →
  references_resolve artifact cfg →
  collapsed.1 = true →
  FilterTable (R:=bool) this artifact cfg old_table filters s
  = (Next (Some p, chain_of artifact cfg filters),
     with_tables (<[p := SplitTable (splits_of artifact cfg) collapsed.2]> (tables s)) s).
Proof.
  intros p collapsed Hctx Hold Hres Hok.
  rewrite (FilterTable_resolved this artifact cfg old_table filters c base s) by done.
  fold collapsed. by rewrite Hok.
Qed.

(** X9: when the version collapser fails on the clone of the base
    table, [FilterTable] reports it and returns null, the clone is
    destroyed as the function is left, and the body of the loop returns
    [false].  The state is as it was but for the error: no table is left,
    no manifest is loaded and no file is written. *)
Theorem failed_version_collapse_fails_the_artifact
    this options apk_name artifact n c base s :
  let cfg := config options in
  let collapsed := Consume (seen_through c (effective_min_sdk artifact cfg c)) base in
  candidate_name artifact cfg apk_name = Some n →
  contexts s !! context_ this = Some c →
  tables s !! table_ (apk_ this) = Some base →
  references_resolve artifact cfg →
  collapsed.1 = false →
  GenerateArtifact this options apk_name artifact s
  = (Return false,
     with_diagnostics
       (diagnostics s ++ [Error (Msg "Failed to strip versioned resources")]) s).
Proof.
  intros cfg collapsed Hn Hctx Hbase Hres Hfail.
  eapply GenerateArtifact_unfiltered; [done|].
  rewrite (FilterTable_resolved this artifact cfg _ [] c base s) by done.
  fold collapsed. by rewrite Hfail.
Qed.

(** X10: an artifact bound to an SDK group of the configuration, when
    [InflateManifest] returns null: the manifest block returns [false]
    without a message and without a change of the state. *)
Theorem unloadable_manifest_fails_the_artifact this artifact cfg group_name android_sdk s :
  android_sdk_group artifact = Some group_name →
  android_sdk_groups cfg !! group_name = Some android_sdk →
  documents s !! manifest_ (apk_ this) = None →
  PatchManifest this artifact cfg s = (Return false, s).
Proof.
  intros Hgroup Hsdk Hdoc.
  unfold PatchManifest. rewrite bind_run, (GetAndroidSdk_found _ _ _ _ _ Hgroup Hsdk).
  unfold InflateManifest. run. rewrite Hdoc. by run.
Qed.

(** X11: an artifact bound to an SDK group of the configuration, when
    the manifest has no root element: the manifest block returns [false]
    without a message; the document it has loaded is all that is new in
    the state. *)
Theorem manifest_without_root_fails_silently
    this artifact cfg group_name android_sdk document s :
  android_sdk_group artifact = Some group_name →
  android_sdk_groups cfg !! group_name = Some android_sdk →
  documents s !! manifest_ (apk_ this) = Some document →
  xml.root document = None →
  PatchManifest this artifact cfg s
  = (Return false,
     with_documents (<[fresh (dom (documents s)) := document]> (documents s)) s).
Proof.
  intros Hgroup Hsdk Hdoc Hroot.
  unfold PatchManifest. rewrite bind_run, (GetAndroidSdk_found _ _ _ _ _ Hgroup Hsdk).
  unfold InflateManifest, load_document. run. rewrite Hdoc. run.
  rewrite lookup_insert_eq. run. rewrite Hroot. by run.
Qed.

(** X12: an artifact bound to an SDK group of the configuration, when
    the root element of the manifest has a namespace or is not named
    [manifest]: the manifest block reports, at the source of the document,
    that the root tag must be the manifest tag, and returns [false]. *)
Theorem wrong_manifest_root_is_reported
    this artifact cfg group_name android_sdk document root s :
  android_sdk_group artifact = Some group_name →
  android_sdk_groups cfg !! group_name = Some android_sdk →
  documents s !! manifest_ (apk_ this) = Some document →
  xml.root document = Some root →
  xml.namespace_uri root ≠ "" ∨ xml.name root ≠ "manifest" →
  PatchManifest this artifact cfg s
  = (Return false,
     with_diagnostics
       (diagnostics s ++
        [Error (MsgAt (xml.file_source document) "root tag must be <manifest>")])
       (with_documents (<[fresh (dom (documents s)) := document]> (documents s)) s)).
Proof.
  intros Hgroup Hsdk Hdoc Hroot Hbad.
  unfold PatchManifest. rewrite bind_run, (GetAndroidSdk_found _ _ _ _ _ Hgroup Hsdk).
  unfold InflateManifest, load_document. run. rewrite Hdoc. run.
  rewrite lookup_insert_eq. run. rewrite Hroot. run.
  destruct Hbad as [Hns|Hname].
  - rewrite (bool_decide_eq_false_2 _ Hns). by run.
  - rewrite (bool_decide_eq_false_2 _ Hname), orb_true_r. by run.
Qed.
End Exits.

(** ** The files of a run *)
Section Files.
Context `{Collaborators}.

#[global] Instance writes_only_at_po dirs file : PreOrder (writes_only_at dirs file).
Proof.
  split.
  - by intros s.
  - intros s1 s2 s3 [Hf12 Hd12] [Hf23 Hd23]. split; intros q Hq.
    + by rewrite Hf23, Hf12.
    + by rewrite Hd23, Hd12.
Qed.

#[global] Instance reporting_writes_only_at dirs file :
  Reporting (writes_only_at dirs file).
Proof.
  intros s s' (_&_&_&Hf&_&Hdirs). split; intros q Hq; by rewrite ?Hf, ?Hdirs.
Qed.

Lemma WriteArtifact_writes_only_at this options n table filters manifest :
  keeps (writes_only_at (made_by_mkdirs (out_dir options))
           (AppendPath (out_dir options) n))
    (WriteArtifact this options (Some n) table filters manifest).
Proof.
  intros s.
  unfold WriteArtifact, file_mkdirs, LoadedApk_WriteToArchive, OpenArchiveWriter,
    emit_via, emit, ask, load_table, load_document.
  split_cases; (split; intros q Hq; simpl; rewrite ?lookup_insert_ne by done;
                [done | rewrite elem_of_union; tauto]).
Qed.

Lemma GenerateArtifact_writes_one_path this options apk_name artifact s q :
  (∀ n, candidate_name artifact (config options) apk_name = Some n →
        q ≠ AppendPath (out_dir options) n) →
  files (GenerateArtifact this options apk_name artifact s).2 !! q = files s !! q
  ∧ (q ∉ made_by_mkdirs (out_dir options) →
     q ∈ directories (GenerateArtifact this options apk_name artifact s).2
     ↔ q ∈ directories s).
Proof.
  intros Hq. unfold GenerateArtifact.
  rewrite bind_run, ResolveArtifactName_run. unfold candidate_name in Hq.
  assert (∀ n st, q ≠ AppendPath (out_dir options) n →
    let st' :=
      ((FilterTable this artifact (config options) (table_ (apk_ this)) []
        ≫= λ '(table, filters),
             when (is_null table) (return_ false);;
             manifest ← PatchManifest this artifact (config options);
             WriteArtifact this options (Some n) table filters manifest) st).2 in
    files st' !! q = files st !! q
    ∧ (q ∉ made_by_mkdirs (out_dir options) →
       q ∈ directories st' ↔ q ∈ directories st))
    as Hrest.
  { intros n st Hn.
    assert (keeps (writes_only_at (made_by_mkdirs (out_dir options))
                     (AppendPath (out_dir options) n))
      (FilterTable this artifact (config options) (table_ (apk_ this)) []
       ≫= λ '(table, filters),
            when (is_null table) (return_ false);;
            manifest ← PatchManifest this artifact (config options);
            WriteArtifact this options (Some n) table filters manifest)) as Hk.
    { apply keeps_bind; [apply _ | |intros [table filters]].
      - eapply keeps_weaken; [|apply FilterTable_adds].
        intros s1 s2 (_&_&_&Hf&_&Hdirs). split; intros q' _; by rewrite ?Hf, ?Hdirs.
      - apply keeps_bind; [apply _ | keeps_all | intros _].
        apply keeps_bind; [apply _ | |intros manifest].
        + eapply keeps_weaken; [|apply PatchManifest_adds].
          intros s1 s2 (_&_&_&Hf&_&Hdirs). split; intros q' _; by rewrite ?Hf, ?Hdirs.
        + apply WriteArtifact_writes_only_at. }
    destruct (Hk st) as [Hfiles Hdirs]. split; [by apply Hfiles | apply Hdirs]. }
  destruct (name artifact), (artifact_format (config options)); simpl in Hq; try done.
  - destruct (Artifact_Name _ _); [by apply Hrest, Hq | done].
  - destruct (Artifact_Name _ _); [by apply Hrest, Hq | done].
  - destruct (ToArtifactName _ _ _); [by apply Hrest, Hq | done].
Qed.

Lemma scoped_files {R A} (body : M R A) (s : State) :
  files (scoped body s).2 = files (body s).2
  ∧ directories (scoped body s).2 = directories (body s).2.
Proof. unfold scoped. by destruct (body s) as [[?|?|?] ?]. Qed.

(** X13: a run touches the output directory, what [file::mkdirs] makes
    besides on the way to it, and the paths of its artifacts, and nothing
    else.  At a path that is none of these (the paths of the artifacts
    being the output directory extended by their names), the file after
    the run, whatever its outcome, is the file before it, and there is a
    directory after the run only if there was one before.  No directory is
    lost. *)
Theorem run_writes_to_the_paths_of_its_artifacts this options s q :
  let s' := (FromBaseApk (R:=bool) this options s).2 in
  q ≠ out_dir options →
  q ∉ mkdirs_makes (out_dir options) →
  (∀ artifact n,
     artifact ∈ artifacts (config options) →
     candidate_name artifact (config options) (GetFilename (source_path (apk_ this))) = Some n →
     q ≠ AppendPath (out_dir options) n) →
  files s' !! q = files s !! q
  ∧ (q ∈ directories s' ↔ q ∈ directories s)
  ∧ directories s ⊆ directories s'.
Proof.
  intros s' Hout Hmade Hq. subst s'.
  assert (q ∉ made_by_mkdirs (out_dir options)) as Hdir.
  { unfold made_by_mkdirs. rewrite elem_of_union. intros [?|Hin]; [done|].
    destruct (mkdirs (out_dir options)); [|by apply elem_of_empty in Hin].
    by apply elem_of_singleton in Hin. }
  assert (∀ xs st, (∀ a, a ∈ xs → a ∈ artifacts (config options)) →
    let st' :=
      (for_each (GenerateArtifact this options (GetFilename (source_path (apk_ this))))
         xs st).2 in
    files st' !! q = files st !! q ∧ (q ∈ directories st' ↔ q ∈ directories st))
    as Hloop.
  { induction xs as [|x xs IH]; intros st Hxs; simpl; [done|].
    rewrite bind_run.
    destruct (scoped_files (GenerateArtifact this options
                (GetFilename (source_path (apk_ this))) x) st) as [Hf Hd].
    destruct (GenerateArtifact_writes_one_path this options
                (GetFilename (source_path (apk_ this))) x st q) as [Hxf Hxd].
    { intros n Hn. eapply Hq; [|done]. apply Hxs. by left. }
    specialize (Hxd Hdir).
    destruct (scoped _ st) as [[[]|r|f] s1]; simpl in *.
    - destruct (IH s1) as [IHf IHd]; [intros a Ha; apply Hxs; by right|].
      by rewrite IHf, IHd, Hf, Hd.
    - by rewrite Hf, Hd.
    - by rewrite Hf, Hd. }
  split_and!.
  - unfold FromBaseApk, call. rewrite bind_run. unfold ask.
    destruct (GetDiagnostics _ _); simpl; [|done].
    rewrite bind_run.
    destruct (Hloop (artifacts (config options)) s (λ a Ha, Ha)) as [Hfiles _].
    by destruct (for_each _ _ s) as [[[]|r|f] s1].
  - unfold FromBaseApk, call. rewrite bind_run. unfold ask.
    destruct (GetDiagnostics _ _); simpl; [|done].
    rewrite bind_run.
    destruct (Hloop (artifacts (config options)) s (λ a Ha, Ha)) as [_ Hdirs].
    by destruct (for_each _ _ s) as [[[]|r|f] s1].
  - by destruct (FromBaseApk_extends (R:=bool) this options s) as (_&_&_&_&_&?).
Qed.

Lemma GenerateArtifact_with_artifacts this options arts apk_name :
  GenerateArtifact this (with_artifacts arts options) apk_name
  = GenerateArtifact this options apk_name.
Proof. reflexivity. Qed.

(** X14: runs compose.  A run over the artifacts [xs ++ ys] is a run
    over [xs] followed, when that run returns [true], by a run over [ys]
    from the state it leaves; when the run over [xs] returns [false] or
    faults, its outcome and its final state are those of the whole run. *)
Theorem runs_compose this options xs ys s :
  is_Some (contexts s !! context_ this) →
  FromBaseApk (R:=bool) this (with_artifacts (xs ++ ys) options) s
  = match FromBaseApk (R:=bool) this (with_artifacts xs options) s with
    | (Next true, s1) => FromBaseApk (R:=bool) this (with_artifacts ys options) s1
    | other => other
    end.
Proof.
  intros Hctx. rewrite !FromBaseApk_run by done. simpl.
  rewrite !GenerateArtifact_with_artifacts, for_each_app.
  pose proof (for_each_extends
                (GenerateArtifact this options (GetFilename (source_path (apk_ this)))) xs
                (GenerateArtifact_extends this options _) s) as (Hc&_).
  pose proof (returns_for_each (λ r, r = false)
                (GenerateArtifact this options (GetFilename (source_path (apk_ this)))) xs
                (GenerateArtifact_returns_false this options _) s) as Hret.
  destruct (for_each _ xs s) as [[[]|r|f] s1]; simpl in *.
  - rewrite FromBaseApk_run by by rewrite Hc. simpl.
    by rewrite GenerateArtifact_with_artifacts.
  - by rewrite (Hret r eq_refl).
  - done.
Qed.

End Files.

(** ** An artifact from its name to its archive *)
Section Archives.
Context `{Collaborators}.

Lemma effective_min_sdk_unbound artifact cfg c :
  android_sdk_group artifact = None → effective_min_sdk artifact cfg c = min_sdk_version_ c.
Proof. intros Hg. unfold effective_min_sdk, bound. by rewrite Hg. Qed.

Lemma effective_min_sdk_bound artifact cfg c g sdk W :
  android_sdk_group artifact = Some g → android_sdk_groups cfg !! g = Some sdk →
  min_sdk_version sdk = Some W → effective_min_sdk artifact cfg c = W.
Proof.
  intros Hg Hs HW. unfold effective_min_sdk, bound. rewrite Hg. simpl. rewrite Hs. simpl.
  by rewrite HW.
Qed.

(** The body of the loop from the naming to the write block, when the
    references resolve and the version collapser succeeds. *)
Lemma GenerateArtifact_filtered this options apk_name artifact n c base s :
  let cfg := config options in
  let p := fresh (dom (tables s)) in
  let collapsed := Consume (seen_through c (effective_min_sdk artifact cfg c)) base in
  let s1 := with_tables (<[p := SplitTable (splits_of artifact cfg) collapsed.2]> (tables s)) s in
  candidate_name artifact cfg apk_name = Some n →
  contexts s !! context_ this = Some c →
  tables s !! table_ (apk_ this) = Some base →
  references_resolve artifact cfg →
  collapsed.1 = true →
  GenerateArtifact this options apk_name artifact s
  = (manifest ← PatchManifest this artifact cfg;
     WriteArtifact this options (Some n) (Some p) (chain_of artifact cfg []) manifest) s1.
Proof.
  intros cfg p collapsed s1 Hn Hctx Hbase Hres Hok. unfold GenerateArtifact.
  rewrite bind_run, (ResolveArtifactName_named _ _ _ n) by done.
  rewrite bind_run, (FilterTable_resolved this artifact cfg _ [] c base s) by done.
  fold collapsed. rewrite Hok. by run.
Qed.

Lemma PatchManifest_unbound this artifact cfg s :
  android_sdk_group artifact = None → PatchManifest this artifact cfg s = (Next None, s).
Proof.
  intros Hsdk. unfold PatchManifest. by rewrite bind_run, (GetAndroidSdk_unbound _ _ _ Hsdk).
Qed.

Lemma PatchManifest_patched this artifact cfg group_name android_sdk W document
    root i uses_sdk j attribute s :
  let manifest := fresh (dom (documents s)) in
  let patched := xml.assign_compiled_value i j (TryParseInt (to_string W)) document in
  android_sdk_group artifact = Some group_name →
  android_sdk_groups cfg !! group_name = Some android_sdk →
  min_sdk_version android_sdk = Some W →
  documents s !! manifest_ (apk_ this) = Some document →
  xml.root document = Some root →
  xml.namespace_uri root = "" → xml.name root = "manifest" →
  xml.FindChild root "" "uses-sdk" = Some (i, uses_sdk) →
  xml.FindAttribute uses_sdk xml.kSchemaAndroid "minSdkVersion" = Some (j, attribute) →
  PatchManifest this artifact cfg s
  = (Next (Some manifest), with_documents (<[manifest := patched]> (documents s)) s).
Proof.
  intros manifest patched Hgroup Hsdk Hmin Hdoc Hroot Hns Hname Hchild Hfind.
  unfold PatchManifest. rewrite bind_run, (GetAndroidSdk_found _ _ _ _ _ Hgroup Hsdk).
  unfold InflateManifest, load_document. run. rewrite Hdoc. run.
  rewrite lookup_insert_eq. run. rewrite Hroot. run.
  rewrite Hns, Hname, Hchild. run. rewrite Hfind, Hmin. run.
  unfold store_document. simpl. rewrite lookup_insert_eq. simpl.
  by rewrite insert_insert_eq.
Qed.

Lemma min_sdk_attribute_assign document root i uses_sdk j attribute v :
  xml.root document = Some root →
  xml.namespace_uri root = "" → xml.name root = "manifest" →
  xml.FindChild root "" "uses-sdk" = Some (i, uses_sdk) →
  xml.FindAttribute uses_sdk xml.kSchemaAndroid "minSdkVersion" = Some (j, attribute) →
  xml.min_sdk_attribute (xml.assign_compiled_value i j v document)
  = Some (xml.set_compiled_value v attribute).
Proof.
  intros Hroot Hns Hname Hchild Hfind.
  apply min_sdk_attribute_Some.
  exists (xml.assign_in_root i j v root), i, (xml.assign_in_element j v uses_sdk), j.
  split_and!.
  - unfold xml.assign_compiled_value. simpl. by rewrite Hroot.
  - by destruct root.
  - by destruct root.
  - by apply FindChild_assign.
  - by apply FindAttribute_assign.
Qed.

(** X15: the body of the loop on an artifact that names no SDK group,
    when the groups it names exist, the version collapser succeeds and the
    archive can be opened.  [WriteToArchive] is given the filtered clone
    of the base table, the filter chain, the writer of the path
    [out_dir/name] and no manifest; the body completes when it succeeds
    and returns [false] when it fails.  The path holds the archive in the
    first case and the file opened for it in the second, the other files
    are as they were, and no document is loaded. *)
Theorem artifact_without_sdk_group_gets_no_manifest
    this options apk_name artifact n c base s :
  let cfg := config options in
  let collapsed := Consume (seen_through c (min_sdk_version_ c)) base in
  let table := SplitTable (splits_of artifact cfg) collapsed.2 in
  let out := AppendPath (out_dir options) n in
  let written :=
    WriteToArchive c table (table_flattener_options options) (chain_of artifact cfg [])
      (Some out) None in
  let result := GenerateArtifact this options apk_name artifact s in
  candidate_name artifact cfg apk_name = Some n →
  contexts s !! context_ this = Some c →
  tables s !! table_ (apk_ this) = Some base →
  references_resolve artifact cfg →
  android_sdk_group artifact = None →
  collapsed.1 = true →
  CreateZipFileArchiveWriter out = true →
  result.1 = (if written then Next tt else Return false)
  ∧ files result.2
    = <[out := if written then Archive table (chain_of artifact cfg []) None else Created]>
        (files s)
  ∧ documents result.2 = documents s.
Proof.
  intros cfg collapsed table out written result Hn Hctx Hbase Hres Hsdk Hok Hw.
  subst result.
  pose proof (GenerateArtifact_filtered this options apk_name artifact n c base s) as Hrun.
  simpl in Hrun. rewrite (effective_min_sdk_unbound _ _ _ Hsdk) in Hrun.
  rewrite Hrun by done. clear Hrun.
  rewrite bind_run, PatchManifest_unbound by done.
  rewrite (WriteArtifact_run this options n _ _ None c table);
    [| done | apply lookup_insert_eq | by intros p [=]].
  fold cfg out. rewrite Hw. simpl. fold collapsed table written.
  by destruct written, (mkdirs (out_dir options)).
Qed.

(** X16: the body of the loop on an artifact bound to an SDK group with
    minimum version [W], when the groups it names exist, the manifest has
    a [minSdkVersion] attribute, the version collapser succeeds and the
    archive can be opened.  The table is collapsed for [W], and the
    manifest given to [WriteToArchive] is a document whose [minSdkVersion]
    attribute has, as compiled value, what [TryParseInt] reads from the
    rendering of [W].  The body completes when [WriteToArchive] succeeds
    and returns [false] when it fails; the path [out_dir/name] holds the
    archive in the first case and the file opened for it in the second;
    the manifest of the base package is as it was. *)
Theorem artifact_with_sdk_group_gets_the_patched_manifest
    this options apk_name artifact n c base group_name android_sdk W
    document attribute s :
  let cfg := config options in
  let collapsed := Consume (seen_through c W) base in
  let table := SplitTable (splits_of artifact cfg) collapsed.2 in
  let out := AppendPath (out_dir options) n in
  let result := GenerateArtifact this options apk_name artifact s in
  candidate_name artifact cfg apk_name = Some n →
  contexts s !! context_ this = Some c →
  tables s !! table_ (apk_ this) = Some base →
  references_resolve artifact cfg →
  android_sdk_group artifact = Some group_name →
  android_sdk_groups cfg !! group_name = Some android_sdk →
  min_sdk_version android_sdk = Some W →
  documents s !! manifest_ (apk_ this) = Some document →
  xml.min_sdk_attribute document = Some attribute →
  collapsed.1 = true →
  CreateZipFileArchiveWriter out = true →
  ∃ patched,
    let written :=
      WriteToArchive c table (table_flattener_options options) (chain_of artifact cfg [])
        (Some out) (Some patched) in
    xml.min_sdk_attribute patched
    = Some (xml.set_compiled_value (TryParseInt (to_string W)) attribute)
    ∧ result.1 = (if written then Next tt else Return false)
    ∧ files result.2
      = <[out := if written
                 then Archive table (chain_of artifact cfg []) (Some patched)
                 else Created]> (files s)
    ∧ documents result.2 !! manifest_ (apk_ this) = Some document.
Proof.
  intros cfg collapsed table out result Hn Hctx Hbase Hres Hgroup Hsdk Hmin Hdoc Hattr
    Hok Hw.
  pose proof Hattr as (root&i&uses_sdk&j&Hroot&Hns&Hname&Hchild&Hfind)%min_sdk_attribute_Some.
  set (patched := xml.assign_compiled_value i j (TryParseInt (to_string W)) document).
  exists patched. intros written. split; [by eapply min_sdk_attribute_assign|].
  assert (documents s !! fresh (dom (documents s)) = None) as Hfresh
    by apply not_elem_of_dom, is_fresh.
  subst result.
  pose proof (GenerateArtifact_filtered this options apk_name artifact n c base s) as Hrun.
  simpl in Hrun.
  rewrite (effective_min_sdk_bound _ _ _ _ _ _ Hgroup Hsdk Hmin) in Hrun.
  rewrite Hrun by done. clear Hrun.
  rewrite bind_run.
  rewrite (PatchManifest_patched this artifact (config options) group_name android_sdk W
             document root i uses_sdk j attribute) by done.
  rewrite (WriteArtifact_run this options n _ _ _ c table);
    [| done | apply lookup_insert_eq
     | intros p [= <-]; simpl; rewrite lookup_insert_eq; by eexists].
  fold cfg out. rewrite Hw. simpl. rewrite lookup_insert_eq. simpl.
  fold collapsed table patched written.
  destruct (mkdirs (out_dir options)); split_and!.
  all: destruct written; simpl; rewrite ?lookup_insert_ne; try done; congruence.
Qed.

(** X17: the naming of an artifact.  The name is computed from the name
    of the artifact when it has one, and from the global template
    otherwise: the template is not consulted for an artifact with a name,
    even when no name can be computed from it.  When a name is computed
    the step completes and reports nothing.  Otherwise it returns [false]
    after one error: the missing template when the artifact has no name
    and the configuration no template, the undetermined name in the other
    cases. *)
Theorem artifact_name_is_its_own_or_the_template artifact cfg apk_name s :
  ResolveArtifactName artifact cfg apk_name s
  = match candidate_name artifact cfg apk_name with
    | Some n => (Next (Some n), s)
    | None =>
        (Return false,
         with_diagnostics
           (diagnostics s
            ++ [Error (Msg (match name artifact, artifact_format cfg with
                            | None, None =>
                                "Artifact does not have a name and no global name template defined"
                            | _, _ => "Could not determine split APK artifact name"
                            end))]) s)
    end.
Proof.
  rewrite ResolveArtifactName_run. unfold candidate_name.
  destruct (name artifact) as [x|].
  - by destruct (Artifact_Name artifact apk_name).
  - destruct (artifact_format cfg) as [format|]; [|done]. simpl.
    by destruct (ToArtifactName artifact format apk_name).
Qed.

(** X18: the write block does not test the archive writer.  When the
    archive cannot be opened, [WriteToArchive] is called with a null
    writer, and its result alone decides whether the block completes or
    returns [false]; no file is created, and none of the messages of the
    block is an error. *)
Theorem unopened_archive_is_not_detected this options file_name table filters manifest
    c t s :
  let out := AppendPath (out_dir options) file_name in
  let document := manifest ≫= λ p, documents s !! p in
  let result := WriteArtifact this options (Some file_name) (Some table) filters manifest s in
  contexts s !! context_ this = Some c →
  tables s !! table = Some t →
  (∀ p, manifest = Some p → is_Some (documents s !! p)) →
  CreateZipFileArchiveWriter out = false →
  result.1 = (if WriteToArchive c t (table_flattener_options options) filters None document
              then Next tt else Return false)
  ∧ files result.2 = files s
  ∧ Forall (λ d, is_error d = false) (drop (length (diagnostics s)) (diagnostics result.2)).
Proof.
  intros out document result Hctx Htable Hmanifest Hw. subst result.
  rewrite (WriteArtifact_run this options file_name table filters manifest c t) by done.
  fold out document. rewrite Hw. simpl. split_and!; try done.
  rewrite drop_app_length.
  destruct (mkdirs _), (verbose c); simpl; repeat constructor.
Qed.

(** X19: what a run leaves of the state it starts from, besides the
    tables.  Whatever the outcome, the build contexts are as they were,
    every document that existed, the manifest of the base package among
    them, is as it was, every file that existed still exists, and the
    messages reported before the run are the first of the messages after
    it.  When the run returns, the documents are those that existed before
    it: the manifests loaded for the artifacts have been destroyed. *)
Theorem run_keeps_the_manifest_and_the_history this options s :
  let s' := (FromBaseApk (R:=bool) this options s).2 in
  contexts s' = contexts s
  ∧ documents s ⊆ documents s'
  ∧ (∀ result, (FromBaseApk (R:=bool) this options s).1 = Next result →
       documents s' = documents s)
  ∧ dom (files s) ⊆ dom (files s')
  ∧ diagnostics s `prefix_of` diagnostics s'.
Proof.
  intros s'. subst s'.
  pose proof (FromBaseApk_extends (R:=bool) this options s) as (Hc&_&Hd&Hf&Hm&Hdirs).
  split_and!; try done.
  intros result Hr.
  destruct (FromBaseApk_settled (R:=bool) this options s) as (_&_&?&_); [|done].
  intros f. by rewrite Hr.
Qed.

End Archives.

(** ** The errors of a run *)
Section Errors.
Context `{Collaborators}.

Lemma resolves_or_not {A} (group : option string) (groups : gmap string A) :
  resolves group groups ∨ ∃ g, group = Some g ∧ groups !! g = None.
Proof.
  destruct group as [g|]; [|left; by intros g [=]].
  destruct (groups !! g) as [x|] eqn:Hg; [left|right; by exists g].
  intros g' [= <-]. by eexists.
Qed.

Lemma FilterTable_quiet this artifact cfg old_table filters c base s p chain :
  contexts s !! context_ this = Some c →
  tables s !! old_table = Some base →
  resolves (android_sdk_group artifact) (android_sdk_groups cfg) →
  (FilterTable (R:=bool) this artifact cfg old_table filters s).1 = Next (Some p, chain) →
  ∃ t, FilterTable (R:=bool) this artifact cfg old_table filters s
       = (Next (Some p, chain), with_tables (<[p := t]> (tables s)) s).
Proof.
  intros Hctx Hold Hsdk.
  destruct (resolves_or_not (abi_group artifact) (abi_groups cfg)) as [Habi|(g&Hg&Hnone)].
  2: { by rewrite (missing_abi_group_fails this cfg artifact old_table filters g c s). }
  destruct (resolves_or_not (screen_density_group artifact) (screen_density_groups cfg))
    as [Hdensity|(g&Hg&Hnone)].
  2: { by rewrite (FilterTable_missing_density this artifact cfg old_table filters g c s). }
  destruct (resolves_or_not (locale_group artifact) (locale_groups cfg))
    as [Hlocale|(g&Hg&Hnone)].
  2: { by rewrite (FilterTable_missing_locale this artifact cfg old_table filters g c s). }
  rewrite (FilterTable_resolved this artifact cfg old_table filters c base s) by done.
  destruct (Consume _ _).1; simpl; [|done].
  intros [= <- <-]. by eexists.
Qed.

Lemma PatchManifest_quiet this artifact cfg s m :
  resolves (android_sdk_group artifact) (android_sdk_groups cfg) →
  (PatchManifest this artifact cfg s).1 = Next m →
  diagnostics (PatchManifest this artifact cfg s).2 = diagnostics s
  ∧ ∀ p, m = Some p → is_Some (documents (PatchManifest this artifact cfg s).2 !! p).
Proof.
  intros Hsdk.
  unfold PatchManifest, GetAndroidSdk, InflateManifest, load_document, store_document, emit.
  destruct (android_sdk_group artifact) as [g|].
  2: { run. intros [= <-]. split; [done|]. by intros p [=]. }
  destruct (Hsdk g eq_refl) as [sdk Hg].
  repeat first
    [ rewrite Hg | rewrite lookup_insert_eq
    | progress run
    | match goal with
      | |- context [match ?x with _ => _ end] =>
          lazymatch x with
          | context [match _ with _ => _ end] => fail
          | _ => destruct x eqn:?
          end
      end ].
  all: try done.
  all: intros [= <-]; split; [done|]; intros p' [= <-]; simpl; rewrite ?lookup_insert_eq;
    by eexists.
Qed.

Lemma errors_app_quiet s l :
  Forall (λ d, is_error d = false) l → List.filter is_error (diagnostics s ++ l) = errors s.
Proof.
  intros Hl. unfold errors. rewrite List.filter_app.
  assert (List.filter is_error l = []) as ->; [|by rewrite app_nil_r].
  induction Hl as [|d l Hd _ IH]; simpl; [done|]. by rewrite Hd.
Qed.

Lemma GenerateArtifact_named this options apk_name artifact n s :
  candidate_name artifact (config options) apk_name = Some n →
  GenerateArtifact this options apk_name artifact s
  = ('(table, filters) ← FilterTable this artifact (config options) (table_ (apk_ this)) [];
     when (is_null table) (return_ false);;
     manifest ← PatchManifest this artifact (config options);
     WriteArtifact this options (Some n) table filters manifest) s.
Proof.
  intros Hn. unfold GenerateArtifact.
  by rewrite bind_run, (ResolveArtifactName_named _ _ _ n).
Qed.

Lemma GenerateArtifact_unnamed this options apk_name artifact s :
  candidate_name artifact (config options) apk_name = None →
  (GenerateArtifact this options apk_name artifact s).1 = Return false.
Proof.
  intros Hn. unfold GenerateArtifact. rewrite bind_run, ResolveArtifactName_run.
  unfold candidate_name in Hn.
  destruct (name artifact), (artifact_format (config options)); simpl in Hn;
    rewrite ?Hn; done.
Qed.

Lemma GenerateArtifact_quiet this options apk_name artifact c base s :
  contexts s !! context_ this = Some c →
  tables s !! table_ (apk_ this) = Some base →
  resolves (android_sdk_group artifact) (android_sdk_groups (config options)) →
  (GenerateArtifact this options apk_name artifact s).1 = Next tt →
  errors (GenerateArtifact this options apk_name artifact s).2 = errors s.
Proof.
  intros Hctx Hbase Hsdk.
  destruct (candidate_name artifact (config options) apk_name) as [n|] eqn:Hn.
  2: { by rewrite GenerateArtifact_unnamed. }
  rewrite (GenerateArtifact_named _ _ _ _ n) by done.
  rewrite bind_run.
  destruct (FilterTable_safe this artifact (config options) (table_ (apk_ this)) [] s)
    as (result&chain&Hout&_); [by eexists..|].
  destruct result as [p|].
  2: { destruct (FilterTable _ _ _ _ _ s) as [o s1]. simpl in Hout. subst o. by run. }
  destruct (FilterTable_quiet this artifact (config options) (table_ (apk_ this)) []
              c base s p chain) as [t ->]; try done.
  set (s1 := with_tables _ s).
  change (((manifest ← PatchManifest this artifact (config options);
            WriteArtifact this options (Some n) (Some p) chain manifest) s1).1 = Next tt →
          errors ((manifest ← PatchManifest this artifact (config options);
            WriteArtifact this options (Some n) (Some p) chain manifest) s1).2 = errors s).
  rewrite bind_run.
  pose proof (PatchManifest_adds this artifact (config options) s1) as (Hc&Ht&_).
  pose proof (PatchManifest_quiet this artifact (config options) s1) as Hq.
  destruct (PatchManifest this artifact (config options) s1) as [[m|r|f] s2]; try done.
  destruct (Hq m Hsdk eq_refl) as [Hd Hm]. simpl in *.
  rewrite (WriteArtifact_run this options n p chain m c t).
  - simpl. intros _. unfold errors at 1. simpl.
    rewrite Hd. apply (errors_app_quiet s).
    destruct (mkdirs _), (verbose c); repeat constructor.
  - by rewrite Hc.
  - rewrite Ht. apply lookup_insert_eq.
  - done.
Qed.

Lemma for_each_quiet this options apk_name xs c base s :
  contexts s !! context_ this = Some c →
  tables s !! table_ (apk_ this) = Some base →
  Forall (λ artifact,
            resolves (android_sdk_group artifact) (android_sdk_groups (config options))) xs →
  (for_each (GenerateArtifact this options apk_name) xs s).1 = Next tt →
  errors (for_each (GenerateArtifact this options apk_name) xs s).2 = errors s.
Proof.
  intros Hctx Hbase Hxs. revert s Hctx Hbase.
  induction Hxs as [|x xs Hx _ IH]; intros s Hctx Hbase; simpl; [done|].
  rewrite bind_run.
  pose proof (scoped_outcome (GenerateArtifact this options apk_name x) s) as Ho.
  pose proof (scoped_extends _ (GenerateArtifact_extends this options apk_name x) s)
    as (Hc&Ht&_).
  assert (diagnostics (scoped (GenerateArtifact this options apk_name x) s).2
          = diagnostics (GenerateArtifact this options apk_name x s).2) as Hd.
  { unfold scoped. by destruct (GenerateArtifact _ _ _ _ _) as [[?|?|?] ?]. }
  pose proof (GenerateArtifact_quiet this options apk_name x c base s Hctx Hbase Hx) as Hq.
  destruct (scoped _ s) as [[[]|r|f] s1]; try done. simpl in *.
  intros Hrest. rewrite IH; try done.
  - unfold errors at 1. rewrite Hd. by apply Hq.
  - by rewrite Hc.
  - by eapply lookup_weaken.
Qed.

(** X20: when the build context and the base table exist and the SDK
    groups named by the artifacts are groups of the configuration, a run
    that returns [true] has reported no error: the errors among the
    messages are those reported before the run. *)
Theorem successful_run_reports_no_error this options s :
  is_Some (contexts s !! context_ this) →
  is_Some (tables s !! table_ (apk_ this)) →
  Forall (λ artifact,
            resolves (android_sdk_group artifact) (android_sdk_groups (config options)))
         (artifacts (config options)) →
  (FromBaseApk (R:=bool) this options s).1 = Next true →
  errors (FromBaseApk (R:=bool) this options s).2 = errors s.
Proof.
  intros [c Hctx] [base Hbase] Hsdk.
  rewrite FromBaseApk_run by by eexists.
  pose proof (for_each_quiet this options (GetFilename (source_path (apk_ this)))
                (artifacts (config options)) c base s Hctx Hbase Hsdk) as Hq.
  pose proof (GenerateArtifact_returns_false this options
                (GetFilename (source_path (apk_ this)))) as Hr.
  destruct (for_each _ _ s) as [[[]|r|f] s1] eqn:Hrun; simpl in *; try done.
  - intros _. by apply Hq.
  - intros [= ->].
    by pose proof (returns_for_each _ _ (artifacts (config options)) Hr s true
                     ltac:(by rewrite Hrun)).
Qed.
End Errors.

(** ** The first failure ends the run *)
Section FailFast.
Context `{Collaborators}.





End FailFast.
(** ** The further properties at work on the scenario *)
Section FurtherWitnesses.
Import Scenario.

Ltac group_resolves :=
  let g := fresh in let Hg := fresh in
  intros g Hg; first [ discriminate Hg | injection Hg as <-; vm_compute; by eexists ].

Lemma new_wrapper_is_transparent_witness :
  GetMinSdkVersion (mkContextWrapper 1%positive 14) (∅ : gmap loc (@Context types))
  = GetMinSdkVersion 1%positive ({[1%positive := base_context]} : gmap loc (@Context types)).
Proof.
  apply (new_wrapper_is_transparent (H:=types) 1%positive {[1%positive := base_context]} ∅
           (mkContextWrapper 1%positive 14)).
  vm_compute. reflexivity.
Defined.

Lemma FilterTable_filters_a_clone_witness :
  FilterTable (H0:=tools true) (R:=bool) generator arm_hi_en (config three_artifacts)
    1%positive [] (initial manifest_with_min_sdk)
  = (Next (Some 2%positive, [AbiFilter (H:=types) ["armeabi-v7a"; "arm64-v8a"]]),
     with_tables
       (<[2%positive := [14; 21; 26]]> (tables (initial manifest_with_min_sdk)))
       (initial manifest_with_min_sdk)).
Proof.
  apply (FilterTable_filters_a_clone (H0:=tools true) generator arm_hi_en
           (config three_artifacts) 1%positive [] base_context base_table
           (initial manifest_with_min_sdk)).
  - reflexivity.
  - reflexivity.
  - split_and!; group_resolves.
  - reflexivity.
Defined.

Lemma failed_version_collapse_fails_the_artifact_witness :
  GenerateArtifact (H0:=failing_tools) generator three_artifacts "app.apk" plain
    (initial manifest_with_min_sdk)
  = (Return false,
     with_diagnostics [Error (Msg "Failed to strip versioned resources")]
       (initial manifest_with_min_sdk)).
Proof.
  apply (failed_version_collapse_fails_the_artifact (H0:=failing_tools) generator
           three_artifacts "app.apk" plain "plain.apk" base_context base_table
           (initial manifest_with_min_sdk)).
  - reflexivity.
  - reflexivity.
  - reflexivity.
  - split_and!; group_resolves.
  - reflexivity.
Defined.

Lemma missing_abi_group_fails_the_artifact_witness :
  GenerateArtifact (H0:=tools true) generator three_artifacts "app.apk" x86
    (initial manifest_with_min_sdk)
  = (Return false,
     with_diagnostics [Error (Msg "could not find referenced ABI group 'x86'")]
       (initial manifest_with_min_sdk)).
Proof.
  apply (missing_abi_group_fails_the_artifact (H0:=tools true) generator three_artifacts
           "app.apk" x86 "x86.apk" "x86" base_context (initial manifest_with_min_sdk)).
  - reflexivity.
  - reflexivity.
  - reflexivity.
  - vm_compute. reflexivity.
Defined.

Lemma missing_density_group_fails_the_artifact_witness :
  GenerateArtifact (H0:=tools true) generator three_artifacts "app.apk" xxhdpi
    (initial manifest_with_min_sdk)
  = (Return false,
     with_diagnostics [Error (Msg "could not find referenced group 'xxhdpi'")]
       (initial manifest_with_min_sdk)).
Proof.
  apply (missing_density_group_fails_the_artifact (H0:=tools true) generator
           three_artifacts "app.apk" xxhdpi "xxhdpi.apk" "xxhdpi" base_context
           (initial manifest_with_min_sdk)).
  - reflexivity.
  - reflexivity.
  - group_resolves.
  - reflexivity.
  - vm_compute. reflexivity.
Defined.

Lemma missing_locale_group_fails_the_artifact_witness :
  GenerateArtifact (H0:=tools true) generator three_artifacts "app.apk" fr
    (initial manifest_with_min_sdk)
  = (Return false,
     with_diagnostics [Error (Msg "could not find referenced group 'fr'")]
       (initial manifest_with_min_sdk)).
Proof.
  apply (missing_locale_group_fails_the_artifact (H0:=tools true) generator
           three_artifacts "app.apk" fr "fr.apk" "fr" base_context
           (initial manifest_with_min_sdk)).
  - reflexivity.
  - reflexivity.
  - group_resolves.
  - group_resolves.
  - reflexivity.
  - vm_compute. reflexivity.
Defined.

Lemma unloadable_manifest_fails_the_artifact_witness :
  PatchManifest (H0:=tools true) generator v21 (config three_artifacts) without_manifest
  = (Return false, without_manifest).
Proof.
  apply (unloadable_manifest_fails_the_artifact (H0:=tools true) generator v21
           (config three_artifacts) "v21" (mkAndroidSdk (Some 21)) without_manifest).
  - reflexivity.
  - vm_compute. reflexivity.
  - reflexivity.
Defined.

Lemma manifest_without_root_fails_silently_witness :
  PatchManifest (H0:=tools true) generator v21 (config three_artifacts)
    (initial manifest_without_root)
  = (Return false,
     with_documents
       (<[2%positive := manifest_without_root]>
          (documents (initial manifest_without_root)))
       (initial manifest_without_root)).
Proof.
  apply (manifest_without_root_fails_silently (H0:=tools true) generator v21
           (config three_artifacts) "v21" (mkAndroidSdk (Some 21)) manifest_without_root
           (initial manifest_without_root)).
  - reflexivity.
  - vm_compute. reflexivity.
  - reflexivity.
  - reflexivity.
Defined.

Lemma wrong_manifest_root_is_reported_witness :
  PatchManifest (H0:=tools true) generator v21 (config three_artifacts)
    (initial manifest_with_wrong_root)
  = (Return false,
     with_diagnostics [Error (MsgAt manifest_source "root tag must be <manifest>")]
       (with_documents
          (<[2%positive := manifest_with_wrong_root]>
             (documents (initial manifest_with_wrong_root)))
          (initial manifest_with_wrong_root))).
Proof.
  apply (wrong_manifest_root_is_reported (H0:=tools true) generator v21
           (config three_artifacts) "v21" (mkAndroidSdk (Some 21))
           manifest_with_wrong_root (xml.mkElement "" "application" 1 [] [])
           (initial manifest_with_wrong_root)).
  - reflexivity.
  - vm_compute. reflexivity.
  - reflexivity.
  - reflexivity.
  - right. simpl. discriminate.
Defined.

Lemma FromBaseApk_never_faults_witness :
  ∃ result,
    (FromBaseApk (H0:=tools true) (R:=bool) generator three_artifacts
       (initial manifest_with_min_sdk)).1 = Next result.
Proof.
  apply (FromBaseApk_never_faults (H0:=tools true) generator three_artifacts
           (initial manifest_with_min_sdk)).
  - by eexists.
  - by eexists.
  - repeat constructor; intros sdk Hsdk; vm_compute in Hsdk;
      first [ discriminate Hsdk | injection Hsdk as <-; by eexists ].
Defined.

Lemma artifacts_are_processed_independently_witness :
  (FromBaseApk (H0:=tools true) (R:=bool) generator (options_for [v21; plain])
     (initial manifest_with_min_sdk)).1 = Next true.
Proof.
  apply (artifacts_are_processed_independently (H0:=tools true) generator
           (options_for [v21; plain]) (initial manifest_with_min_sdk)).
  - by eexists.
  - repeat constructor.
Defined.

Lemma run_writes_to_the_paths_of_its_artifacts_witness :
  files (FromBaseApk (H0:=tools true) (R:=bool) generator (options_for [plain])
           (initial manifest_with_min_sdk)).2 !! "out/other.apk"
  = files (initial manifest_with_min_sdk) !! "out/other.apk"
  ∧ ("out/other.apk"
       ∈ directories (FromBaseApk (H0:=tools true) (R:=bool) generator
                        (options_for [plain]) (initial manifest_with_min_sdk)).2
     ↔ "out/other.apk" ∈ directories (initial manifest_with_min_sdk))
  ∧ directories (initial manifest_with_min_sdk)
    ⊆ directories (FromBaseApk (H0:=tools true) (R:=bool) generator
                     (options_for [plain]) (initial manifest_with_min_sdk)).2.
Proof.
  apply (run_writes_to_the_paths_of_its_artifacts (H0:=tools true) generator
           (options_for [plain]) (initial manifest_with_min_sdk) "out/other.apk").
  - discriminate.
  - intros Hin. by apply elem_of_empty in Hin.
  - intros artifact n Hin Hn. apply list_elem_of_singleton in Hin. subst artifact.
    injection Hn as <-. discriminate.
Defined.

Lemma runs_compose_witness :
  FromBaseApk (H0:=tools true) (R:=bool) generator
    (with_artifacts ([v21] ++ [plain]) three_artifacts) (initial manifest_with_min_sdk)
  = match FromBaseApk (H0:=tools true) (R:=bool) generator
            (with_artifacts [v21] three_artifacts) (initial manifest_with_min_sdk) with
    | (Next true, s1) =>
        FromBaseApk (H0:=tools true) (R:=bool) generator
          (with_artifacts [plain] three_artifacts) s1
    | other => other
    end.
Proof.
  apply (runs_compose (H0:=tools true) generator three_artifacts [v21] [plain]
           (initial manifest_with_min_sdk)).
  by eexists.
Defined.

Lemma artifact_without_sdk_group_gets_no_manifest_witness :
  files (GenerateArtifact (H0:=tools true) generator three_artifacts "app.apk" arm_hi_en
           (initial manifest_with_min_sdk)).2
  = {[ "out/arm-hi-en.apk" :=
         Archive (H:=types) [14; 21; 26] [AbiFilter (H:=types) ["armeabi-v7a"; "arm64-v8a"]]
           None ]}.
Proof.
  refine (proj1 (proj2
    (artifact_without_sdk_group_gets_no_manifest (H0:=tools true) generator
       three_artifacts "app.apk" arm_hi_en "arm-hi-en.apk" base_context base_table
       (initial manifest_with_min_sdk) _ _ _ _ _ _ _))).
  - reflexivity.
  - reflexivity.
  - reflexivity.
  - split_and!; group_resolves.
  - reflexivity.
  - reflexivity.
  - reflexivity.
Defined.

Lemma artifact_with_sdk_group_gets_the_patched_manifest_witness :
  ∃ patched,
    xml.compiled_value <$> xml.min_sdk_attribute patched
    = Some (Some (xml.BinaryPrimitive 21))
    ∧ files (GenerateArtifact (H0:=tools true) generator three_artifacts "app.apk" v21
               (initial manifest_with_min_sdk)).2
      = {[ "out/v21.apk" := Archive (H:=types) [21; 26] [] (Some patched) ]}.
Proof.
  destruct (artifact_with_sdk_group_gets_the_patched_manifest (H0:=tools true) generator
              three_artifacts "app.apk" v21 "v21.apk" base_context base_table "v21"
              (mkAndroidSdk (Some 21)) 21 manifest_with_min_sdk
              (xml.mkAttribute xml.kSchemaAndroid "minSdkVersion" "14"
                 (Some (xml.BinaryPrimitive 14)))
              (initial manifest_with_min_sdk))
    as (patched & Hattribute & _ & Hfiles & _).
  - reflexivity.
  - reflexivity.
  - reflexivity.
  - split_and!; group_resolves.
  - reflexivity.
  - vm_compute. reflexivity.
  - reflexivity.
  - reflexivity.
  - vm_compute. reflexivity.
  - reflexivity.
  - reflexivity.
  - exists patched. split.
    + rewrite Hattribute. vm_compute. reflexivity.
    + exact Hfiles.
Defined.

Lemma unopened_archive_is_not_detected_witness :
  (WriteArtifact (H0:=failing_tools) generator three_artifacts (Some "v21.apk")
     (Some 2%positive) [] None filtered).1 = Return false
  ∧ files (WriteArtifact (H0:=failing_tools) generator three_artifacts (Some "v21.apk")
             (Some 2%positive) [] None filtered).2 = ∅.
Proof.
  destruct (unopened_archive_is_not_detected (H0:=failing_tools) generator three_artifacts
              "v21.apk" 2%positive [] None base_context [21; 26] filtered)
    as (Houtcome & Hfiles & _).
  - reflexivity.
  - vm_compute. reflexivity.
  - intros p Hp. discriminate Hp.
  - reflexivity.
  - split; [exact Houtcome | exact Hfiles].
Defined.

Lemma successful_run_reports_no_error_witness :
  errors (FromBaseApk (H0:=tools true) (R:=bool) generator (options_for [v21; plain])
            (initial manifest_with_min_sdk)).2
  = errors (initial manifest_with_min_sdk).
Proof.
  apply (successful_run_reports_no_error (H0:=tools true) generator
           (options_for [v21; plain]) (initial manifest_with_min_sdk)).
  - by eexists.
  - by eexists.
  - repeat constructor; group_resolves.
  - vm_compute. reflexivity.
Defined.


End FurtherWitnesses.
